(** * Photo-Watermark-1: the watermark script [watermark.py]

    A shallow embedding of the script and the properties of its
    specification.  The script has four functions besides [main]:

    - [get_exif_datetime]: reads the capture date of an image,
    - [add_watermark_to_image]: draws the date on a transparent layer and
      composites it over the image,
    - [process_images_in_directory]: the per-file loop,
    - [parse_color]: the [argparse] type function of the [--color] option.

    Python values are modelled as follows.  A [str] is a [string] whose
    characters are code points below 256 (the Latin-1 part of Unicode); an
    [int] is a [Z]; a tuple or list of ints is a [list Z]; a [dict] is a
    [gmap] where only lookups matter and an association list where the
    iteration order matters; [None] or a value is an [option].  A call that
    can raise returns a [result]; the functions that print and write files
    run in the monad [M], which threads the console and the files written so
    far and keeps them when an exception passes through. *)

From Stdlib Require Import ZArith List Ascii String Lia Bool.
From stdpp Require Import base option list strings gmap.

Local Open Scope string_scope.
Local Open Scope list_scope.
Local Open Scope Z_scope.

(** ** Exceptions and results *)

(** The exception classes the script meets.  All of them derive from
    Python's [Exception], so [except Exception] and a bare [except] catch
    each of them.  [ArgumentTypeError] carries the text interpolated in its
    message. *)
Inductive exn : Type :=
| ValueError
| TypeError
| AttributeError
| OSError
| OverflowError
| KeyError
| ArgumentTypeError (color_string : string).

Inductive result (A : Type) : Type :=
| Return (a : A)
| Raise (e : exn).
Arguments Return {A} a.
Arguments Raise {A} e.

Definition rbind {A B} (r : result A) (f : A -> result B) : result B :=
  match r with
  | Return a => f a
  | Raise e => Raise e
  end.

(** Left-to-right evaluation of a comprehension whose element expression can
    raise: the first exception ends it. *)
Fixpoint rmap {A B} (f : A -> result B) (l : list A) : result (list B) :=
  match l with
  | [] => Return []
  | x :: l' => rbind (f x) (fun y => rbind (rmap f l') (fun ys => Return (y :: ys)))
  end.

Definition is_raise {A} (r : result A) : Prop :=
  match r with
  | Return _ => False
  | Raise _ => True
  end.

(** ** The Python built-ins the script calls *)

Module Py.

Definition ord (c : ascii) : Z := Z.of_N (N_of_ascii c).

Definition between (lo hi n : Z) : bool := (lo <=? n) && (n <=? hi).

(** [str.isspace] on one code point (CPython's [_PyUnicode_IsWhitespace]),
    below 256. *)
Definition isspace (c : ascii) : bool :=
  let n := ord c in
  between 9 13 n || between 28 32 n || (n =? 133) || (n =? 160).

(** [str.isdecimal] on one code point below 256: the ASCII digits. *)
Definition isdecimal (c : ascii) : bool := between 48 57 (ord c).

Fixpoint lstrip (s : string) : string :=
  match s with
  | String c s' => if isspace c then lstrip s' else s
  | EmptyString => EmptyString
  end.

Fixpoint rstrip (s : string) : string :=
  match s with
  | EmptyString => EmptyString
  | String c s' =>
      match rstrip s' with
      | EmptyString => if isspace c then EmptyString else String c EmptyString
      | r => String c r
      end
  end.

(** [s.strip()] *)
Definition strip (s : string) : string := rstrip (lstrip s).

(** [s.count(c)] for a one-character [c] *)
Fixpoint count (c : ascii) (s : string) : nat :=
  match s with
  | EmptyString => 0%nat
  | String a s' => ((if Ascii.eqb a c then 1 else 0) + count c s')%nat
  end.

(** [s.split(c)] for a one-character separator [c] *)
Fixpoint split (c : ascii) (s : string) : list string :=
  match s with
  | EmptyString => [EmptyString]
  | String a s' =>
      if Ascii.eqb a c then EmptyString :: split c s'
      else match split c s' with
           | x :: xs => String a x :: xs
           | [] => [String a EmptyString]
           end
  end.

(** [sep.join(xs)] for a one-character separator *)
Fixpoint join (c : ascii) (xs : list string) : string :=
  match xs with
  | [] => EmptyString
  | [x] => x
  | x :: xs' => x +:+ String c (join c xs')
  end.

(** [s[i:j]] for [0 <= i <= j]; Python clamps both ends to the string. *)
Definition slice (i j : nat) (s : string) : string :=
  String.substring i (j - i) s.

(** [s[i:]] *)
Fixpoint slice_from (i : nat) (s : string) : string :=
  match i, s with
  | O, _ => s
  | S _, EmptyString => EmptyString
  | S i', String _ s' => slice_from i' s'
  end.

Fixpoint startswith (s p : string) {struct p} : bool :=
  match p, s with
  | EmptyString, _ => true
  | String _ _, EmptyString => false
  | String a p', String b s' => Ascii.eqb a b && startswith s' p'
  end.

Definition endswith (s suffix : string) : bool :=
  let n := String.length s in
  let m := String.length suffix in
  (m <=? n)%nat && String.eqb (slice_from (n - m) s) suffix.

(** [s.endswith(t)] for a tuple [t] of suffixes *)
Definition endswith_any (s : string) (suffixes : list string) : bool :=
  existsb (endswith s) suffixes.

(** [str.lower] on one code point below 256: the ASCII capitals, and the
    Latin-1 capitals U+00C0 .. U+00DE without the multiplication sign. *)
Definition lower_char (c : ascii) : ascii :=
  let n := ord c in
  if between 65 90 n || (between 192 222 n && negb (n =? 215))
  then ascii_of_N (Z.to_N (n + 32))
  else c.

Fixpoint lower (s : string) : string :=
  match s with
  | EmptyString => EmptyString
  | String c s' => String (lower_char c) (lower s')
  end.

(** *** [int(s, base)]

    CPython converts a [str] in two steps.  [PyLong_FromUnicodeObject]
    first rewrites the string to ASCII: a code point below 127 stays, a
    Unicode space becomes a blank, a Unicode decimal digit becomes its
    ASCII digit, and anything else becomes ['?'], which no literal
    accepts.  [PyLong_FromString] then reads: blanks, an optional sign, for
    base 16 an optional [0x] or [0X] (and one underscore after it), digits
    with single underscores between them, blanks, end of string.  The
    interpreter's optional limit on the number of decimal digits
    ([sys.set_int_max_str_digits]) is not part of the model. *)

Definition to_ascii (c : ascii) : ascii :=
  if ord c <? 127 then c else if isspace c then " "%char else "?"%char.

Fixpoint to_ascii_str (s : string) : string :=
  match s with
  | EmptyString => EmptyString
  | String c s' => String (to_ascii c) (to_ascii_str s')
  end.

(** C's [Py_ISSPACE] *)
Definition c_isspace (c : ascii) : bool :=
  let n := ord c in between 9 13 n || (n =? 32).

Fixpoint skip_spaces (s : string) : string :=
  match s with
  | String c s' => if c_isspace c then skip_spaces s' else s
  | EmptyString => EmptyString
  end.

(** [_PyLong_DigitValue] *)
Definition digit_value (c : ascii) : option Z :=
  let n := ord c in
  if between 48 57 n then Some (n - 48)
  else if between 97 122 n then Some (n - 87)
  else if between 65 90 n then Some (n - 55)
  else None.

Definition is_digit (base : Z) (c : ascii) : option Z :=
  match digit_value c with
  | Some d => if d <? base then Some d else None
  | None => None
  end.

(** The digit loop: [prev_us] says that the previous character was an
    underscore, [digits] counts the digits read, [acc] is their value.
    The loop stops at the first character that is neither a digit of the
    base nor an underscore; two underscores in a row and an underscore
    last are errors. *)
Fixpoint scan_digits (base : Z) (prev_us : bool) (digits : nat) (acc : Z)
    (s : string) : option (nat * Z * string) :=
  let stop := if prev_us then None else Some (digits, acc, s) in
  match s with
  | EmptyString => stop
  | String c s' =>
      if Ascii.eqb c "_" then
        if prev_us then None else scan_digits base true digits acc s'
      else
        match is_digit base c with
        | Some d => scan_digits base false (S digits) (acc * base + d) s'
        | None => stop
        end
  end.

Definition read_sign (s : string) : Z * string :=
  match s with
  | String "+" s' => (1, s')
  | String "-" s' => (-1, s')
  | _ => (1, s)
  end.

Definition read_prefix (base : Z) (s : string) : string :=
  match s with
  | String "0" (String x s') =>
      if (base =? 16) && (Ascii.eqb x "x" || Ascii.eqb x "X") then
        match s' with
        | String "_" s'' => s''
        | _ => s'
        end
      else s
  | _ => s
  end.

(** [int(s, base)] for base 10 and 16; [None] is [ValueError]. *)
Definition int (s : string) (base : Z) : option Z :=
  let s := skip_spaces (to_ascii_str s) in
  let '(sign, s) := read_sign s in
  let s := read_prefix base s in
  match s with
  | String "_" _ => None
  | _ =>
      match scan_digits base false 0 0 s with
      | Some (S _, v, rest) =>
          match skip_spaces rest with
          | EmptyString => Some (sign * v)
          | _ => None
          end
      | _ => None
      end
  end.

Definition int_or_raise (s : string) (base : Z) : result Z :=
  match int s base with
  | Some v => Return v
  | None => Raise ValueError
  end.

End Py.

(** ** [parse_color] *)

(** [tuple(int(color_string[i:i+2], 16) for i in idx)] *)
Definition hex_channels (color_string : string) (idx : list nat) : result (list Z) :=
  rmap (fun i => Py.int_or_raise (Py.slice i (i + 2) color_string) 16) idx.

Definition parse_color (color_string : string) : result (list Z) :=
  if Py.startswith color_string "#" then
    let color_string := Py.slice_from 1 color_string in
    if (String.length color_string =? 6)%nat then
      rbind (hex_channels color_string [0; 2; 4]%nat) (fun t => Return (t ++ [255]))
    else if (String.length color_string =? 8)%nat then
      hex_channels color_string [0; 2; 4; 6]%nat
    else Raise (ArgumentTypeError color_string)
  else if (Py.count "," color_string =? 2)%nat || (Py.count "," color_string =? 3)%nat then
    rbind (rmap (fun x => Py.int_or_raise (Py.strip x) 10) (Py.split "," color_string))
      (fun values =>
         if (List.length values =? 3)%nat then Return (values ++ [255])
         else if (List.length values =? 4)%nat then Return values
         else Raise (ArgumentTypeError color_string))
  else Raise (ArgumentTypeError color_string).

(** ** [datetime.strptime] and [strftime] for the script's two formats *)

Module Strptime.

(** [_strptime] turns the format ["%Y:%m:%d %H:%M:%S"] into the regular
    expression

    [(?P<Y>\d\d\d\d):(?P<m>1[0-2]|0[1-9]|[1-9]):(?P<d>3[0-1]|[1-2]\d|0[1-9]|[1-9]| [1-9])\s+(?P<H>2[0-3]|[0-1]\d|\d):(?P<M>[0-5]\d|\d):(?P<S>6[0-1]|[0-5]\d|\d)]

    and matches it at the start of the data.  A matcher lists the ways a
    pattern matches a prefix of its input, as (matched text, rest), in
    the order in which the backtracking engine tries them. *)
Definition matcher : Type := string -> list (string * string).

Definition cls (p : ascii -> bool) : matcher := fun s =>
  match s with
  | String c r => if p c then [(String c EmptyString, r)] else []
  | EmptyString => []
  end.

Definition chr (c : ascii) : matcher := cls (Ascii.eqb c).

Definition rng (lo hi : ascii) : matcher :=
  cls (fun c => Py.between (Py.ord lo) (Py.ord hi) (Py.ord c)).

(** [\d] *)
Definition digit : matcher := cls Py.isdecimal.

Definition seq (m1 m2 : matcher) : matcher := fun s =>
  flat_map (fun '(a, r) => List.map (fun '(b, r') => (a +:+ b, r')) (m2 r)) (m1 s).

Definition alt (ms : list matcher) : matcher := fun s =>
  flat_map (fun m : matcher => m s) ms.

(** [\s+]: greedy, so the longest run is tried first. *)
Fixpoint spaces (s : string) : list (string * string) :=
  match s with
  | String c r =>
      if Py.isspace c then
        List.map (fun '(a, r') => (String c a, r')) (spaces r) ++ [(String c EmptyString, r)]
      else []
  | EmptyString => []
  end.

Definition re_Y : matcher := seq digit (seq digit (seq digit digit)).
Definition re_m : matcher :=
  alt [seq (chr "1") (rng "0" "2"); seq (chr "0") (rng "1" "9"); rng "1" "9"].
Definition re_d : matcher :=
  alt [seq (chr "3") (rng "0" "1"); seq (rng "1" "2") digit;
       seq (chr "0") (rng "1" "9"); rng "1" "9"; seq (chr " ") (rng "1" "9")].
Definition re_H : matcher :=
  alt [seq (chr "2") (rng "0" "3"); seq (rng "0" "1") digit; digit].
Definition re_M : matcher := alt [seq (rng "0" "5") digit; digit].
Definition re_S : matcher :=
  alt [seq (chr "6") (rng "0" "1"); seq (rng "0" "5") digit; digit].

Record groups : Type := Groups {
  g_Y : string; g_m : string; g_d : string;
  g_H : string; g_M : string; g_S : string
}.

(** Bind of the list of matches: [then_ m s k] continues every match of
    [m] on [s] with [k], in order. *)
Definition then_ {A} (m : matcher) (s : string) (k : string -> string -> list A) : list A :=
  flat_map (fun '(a, r) => k a r) (m s).

Definition format_regex (s : string) : list (groups * string) :=
  then_ re_Y s (fun Y s =>
  then_ (chr ":") s (fun _ s =>
  then_ re_m s (fun m s =>
  then_ (chr ":") s (fun _ s =>
  then_ re_d s (fun d s =>
  then_ spaces s (fun _ s =>
  then_ re_H s (fun H s =>
  then_ (chr ":") s (fun _ s =>
  then_ re_M s (fun M s =>
  then_ (chr ":") s (fun _ s =>
  then_ re_S s (fun S s =>
  [(Groups Y m d H M S, s)]))))))))))).

Record datetime : Type := Datetime {
  year : Z; month : Z; day : Z; hour : Z; minute : Z; second : Z
}.

Definition is_leap (y : Z) : bool :=
  (y mod 4 =? 0) && (negb (y mod 100 =? 0) || (y mod 400 =? 0)).

Definition days_in_month (y m : Z) : Z :=
  if m =? 2 then (if is_leap y then 29 else 28)
  else if (m =? 4) || (m =? 6) || (m =? 9) || (m =? 11) then 30
  else 31.

(** The checks of the [datetime] constructor. *)
Definition valid (dt : datetime) : bool :=
  Py.between 1 9999 (year dt) && Py.between 1 12 (month dt)
  && Py.between 1 (days_in_month (year dt) (month dt)) (day dt)
  && Py.between 0 23 (hour dt) && Py.between 0 59 (minute dt)
  && Py.between 0 59 (second dt).

Definition convert (g : groups) : option datetime :=
  Y ← Py.int (g_Y g) 10; m ← Py.int (g_m g) 10; d ← Py.int (g_d g) 10;
  H ← Py.int (g_H g) 10; M ← Py.int (g_M g) 10; S ← Py.int (g_S g) 10;
  Some (Datetime Y m d H M S).

(** [datetime.datetime.strptime(data_string, "%Y:%m:%d %H:%M:%S")] for a
    [str] argument: [ValueError] when the pattern does not match, when
    the match leaves data unconverted, or when the fields are no date and
    time. *)
Definition strptime (data_string : string) : result datetime :=
  match format_regex data_string with
  | [] => Raise ValueError
  | (g, rest) :: _ =>
      match rest with
      | String _ _ => Raise ValueError
      | EmptyString =>
          match convert g with
          | Some dt => if valid dt then Return dt else Raise ValueError
          | None => Raise ValueError
          end
      end
  end.

Definition digit_char (n : Z) : ascii := ascii_of_N (Z.to_N (48 + n mod 10)).

Definition pad2 (n : Z) : string :=
  String (digit_char (n / 10)) (String (digit_char n) EmptyString).

Definition pad4 (n : Z) : string :=
  String (digit_char (n / 1000)) (String (digit_char (n / 100)) (pad2 n)).

(** A decimal text without the zeros that lead it. *)
Fixpoint drop_zeros (s : string) : string :=
  match s with
  | EmptyString => EmptyString
  | String c s' =>
      if Ascii.eqb c "0" then
        match s' with
        | EmptyString => s
        | String _ _ => drop_zeros s'
        end
      else s
  end.

(** The year as [%Y] writes it.  Python leaves [%Y] to the C library: some
    write four digits, zeros first; glibc writes a year below 1000 without
    them.  [padded] says which it is. *)
Definition year_text (padded : bool) (y : Z) : string :=
  if padded then pad4 y else drop_zeros (pad4 y).

(** [dt.strftime("%Y-%m-%d")] *)
Definition strftime (padded : bool) (dt : datetime) : string :=
  year_text padded (year dt) +:+ "-" +:+ pad2 (month dt) +:+ "-" +:+ pad2 (day dt).

End Strptime.

(** ** Images, fonts and the file system *)

(** Pillow image modes: the two the script converts to, and the rest. *)
Inductive mode : Type := RGB | RGBA | OtherMode (name : string).

Inductive font : Type :=
| TrueType (file : string) (size : Z)
| DefaultFont.

(** Pixel data is kept as the history of the Pillow calls that built it. *)
Inductive pixels : Type :=
| Decoded (path : string)
| Converted (m : mode) (p : pixels)
| Solid (color : list Z)
| DrawText (xy : Z * Z) (text : string) (f : font) (fill : list Z) (p : pixels)
| AlphaComposite (im1 im2 : pixels).

Record image : Type := Image {
  im_mode : mode;
  im_size : Z * Z;
  im_data : pixels
}.

(** A value of the Exif dictionary: the date tags hold a [str] in a
    well-formed file; other values are bytes, numbers and tuples. *)
Inductive exif_value : Type :=
| ExifStr (s : string)
| ExifOther.

(** What [Image.open] finds in a file that it identifies. *)
Record image_file : Type := ImageFile {
  file_mode : mode;
  file_size : Z * Z;
  (** [image._getexif()]: raises (the method only exists for some formats),
      returns [None], or returns the dictionary, here its [items()] *)
  file_getexif : result (option (list (Z * exif_value)));
  (** decoding the pixel data, which [convert] does: the error, if any *)
  file_load : option exn
}.

(** Everything the script reads from its environment. *)
Record world : Type := World {
  (** [Image.open(path)] *)
  image_open : string -> result image_file;
  (** the exception of [os.makedirs(path, exist_ok=True)], if it raises *)
  makedirs_error : string -> option exn;
  (** [os.listdir(path)]: the names in its order, or its exception *)
  listdir : string -> result (list string);
  (** [ImageFont.truetype(file, size)] *)
  truetype : string -> Z -> result font;
  (** [draw.textbbox((0, 0), text, font=font)] *)
  textbbox : font -> string -> result (Z * Z * Z * Z);
  (** the exception of [draw.text(xy, text, font=font, fill=fill)], if it
      raises *)
  draw_text_error : Z * Z -> string -> font -> list Z -> option exn;
  (** the exception of [image.save(path)], if it raises *)
  save_error : string -> image -> option exn;
  (** whether [%Y] of the C library pads a year below 1000 with zeros *)
  year_padded : bool
}.

(** The lines the script prints. *)
Inductive message : Type :=
| ExifError (image_path : string) (e : exn)
| WatermarkError (image_path : string) (e : exn)
| NoCaptureTime (filename : string)
| Processed (filename output_path : string)
| Summary (processed_count : Z).

(** What the script has changed so far. *)
Record state : Type := State {
  console : list message;
  made_dirs : list string;
  saved : list (string * image)
}.

Definition initial : state := State [] [] [].

(** ** The monad of printing and writing *)

Definition M (A : Type) : Type := state -> result A * state.

Definition ret {A} (a : A) : M A := fun st => (Return a, st).

Definition raise {A} (e : exn) : M A := fun st => (Raise e, st).

Definition bind {A B} (m : M A) (f : A -> M B) : M B := fun st =>
  match m st with
  | (Return a, st') => f a st'
  | (Raise e, st') => (Raise e, st')
  end.

Notation "x <- m ;; k" := (bind m (fun x => k))
  (at level 100, m at next level, right associativity).
Notation "m ;;; k" := (bind m (fun _ => k))
  (at level 100, right associativity).

(** [try: m  except Exception as e: handler e] *)
Definition try_except {A} (m : M A) (handler : exn -> M A) : M A := fun st =>
  match m st with
  | (Return a, st') => (Return a, st')
  | (Raise e, st') => handler e st'
  end.

(** A call that raises or returns without touching the state. *)
Definition lift {A} (r : result A) : M A := fun st => (r, st).

(** [print(...)]: the line goes to the console; writing it is taken to
    succeed. *)
Definition print (m : message) : M unit := fun st =>
  (Return tt, State (console st ++ [m]) (made_dirs st) (saved st)).

(** ** [os.path] *)

Definition basename (p : string) : string :=
  List.last (Py.split "/" p) EmptyString.

Definition path_join (a b : string) : string :=
  if Py.startswith b "/" then b
  else if String.eqb a EmptyString || Py.endswith a "/" then a +:+ b
  else a +:+ "/" +:+ b.

(** ** [PIL.ExifTags.TAGS] *)

(** The names of the tag numbers; the three date tags and some of their
    neighbours in the table.  No other number has one of the three names. *)
Definition TAGS : gmap Z string :=
  list_to_map
    [ (0x010F, "Make"); (0x0110, "Model"); (0x0112, "Orientation");
      (0x0131, "Software"); (0x0132, "DateTime"); (0x013B, "Artist");
      (0x8769, "ExifOffset"); (0x829A, "ExposureTime");
      (0x9000, "ExifVersion"); (0x9003, "DateTimeOriginal");
      (0x9004, "DateTimeDigitized"); (0x9290, "SubsecTime");
      (0xA002, "ExifImageWidth"); (0xA003, "ExifImageHeight") ].

(** A tag after [TAGS.get(tag_id, tag_id)]: the name, or the number when
    the table has none. *)
Inductive tag : Type :=
| TagName (name : string)
| TagId (tag_id : Z).

Definition TAGS_get (tag_id : Z) : tag :=
  match TAGS !! tag_id with
  | Some name => TagName name
  | None => TagId tag_id
  end.

(** [tag in ("DateTime", "DateTimeOriginal", "DateTimeDigitized")] *)
Definition is_date_tag (t : tag) : bool :=
  match t with
  | TagName name =>
      existsb (String.eqb name) ["DateTime"; "DateTimeOriginal"; "DateTimeDigitized"]
  | TagId _ => false
  end.

(** ** The script *)

Section Script.

Variable w : world.

(** [os.makedirs(path, exist_ok=True)] *)
Definition makedirs (path : string) : M unit := fun st =>
  match makedirs_error w path with
  | Some e => (Raise e, st)
  | None =>
      (Return tt,
       if bool_decide (path ∈ made_dirs st) then st
       else State (console st) (made_dirs st ++ [path]) (saved st))
  end.

(** *** [get_exif_datetime] *)

(** [datetime.datetime.strptime(value, ...)]: a value that is no [str]
    is a [TypeError]. *)
Definition strptime_value (value : exif_value) : result Strptime.datetime :=
  match value with
  | ExifStr s => Strptime.strptime s
  | ExifOther => Raise TypeError
  end.

(** The [for] loop over [exif_data.items()]: the first date tag ends it,
    with the date or with the exception of [strptime]. *)
Fixpoint exif_loop (items : list (Z * exif_value)) : result (option string) :=
  match items with
  | [] => Return None
  | (tag_id, value) :: items' =>
      let tag := TAGS_get tag_id in
      if is_date_tag tag then
        rbind (strptime_value value)
          (fun dt => Return (Some (Strptime.strftime (year_padded w) dt)))
      else exif_loop items'
  end.

(** The body of the [try]. *)
Definition get_exif_datetime_body (image_path : string) : result (option string) :=
  rbind (image_open w image_path) (fun image =>
  rbind (file_getexif image) (fun exif_data =>
  match exif_data with
  | Some items => exif_loop items
  | None => Return None
  end)).

Definition get_exif_datetime (image_path : string) : M (option string) :=
  try_except
    (lift (get_exif_datetime_body image_path))
    (fun e => print (ExifError image_path e) ;;; ret None).

(** *** [add_watermark_to_image] *)

(** [Image.open(image_path).convert("RGBA")] *)
Definition open_rgba (image_path : string) : result image :=
  rbind (image_open w image_path) (fun f =>
  match file_load f with
  | Some e => Raise e
  | None =>
      Return (Image RGBA (file_size f)
                (match file_mode f with
                 | RGBA => Decoded image_path
                 | _ => Converted RGBA (Decoded image_path)
                 end))
  end).

(** The nested [try] around the fonts: the first that loads. *)
Definition load_font (font_size : Z) : font :=
  match truetype w "arial.ttf" font_size with
  | Return f => f
  | Raise _ =>
      match truetype w "DejaVuSans.ttf" font_size with
      | Return f => f
      | Raise _ => DefaultFont
      end
  end.

Definition positions (width height text_width text_height : Z) : gmap string (Z * Z) :=
  list_to_map
    [ ("top-left", (10, 10));
      ("top-center", ((width - text_width) / 2, 10));
      ("top-right", (width - text_width - 10, 10));
      ("middle-left", (10, (height - text_height) / 2));
      ("center", ((width - text_width) / 2, (height - text_height) / 2));
      ("middle-right", (width - text_width - 10, (height - text_height) / 2));
      ("bottom-left", (10, height - text_height - 10));
      ("bottom-center", ((width - text_width) / 2, height - text_height - 10));
      ("bottom-right", (width - text_width - 10, height - text_height - 10)) ].

(** [positions.get(position, positions['bottom-right'])] *)
Definition draw_origin (width height text_width text_height : Z) (position : string)
    : option (Z * Z) :=
  let positions := positions width height text_width text_height in
  match positions !! "bottom-right" with
  | Some fallback => Some (default fallback (positions !! position))
  | None => None
  end.

(** [image_path.lower().endswith(('.jpg', '.jpeg'))] *)
Definition is_jpeg_path (image_path : string) : bool :=
  Py.endswith_any (Py.lower image_path) [".jpg"; ".jpeg"].

(** [Image.convert("RGB")] *)
Definition convert_rgb (im : image) : image :=
  Image RGB (im_size im) (Converted RGB (im_data im)).

(** The body of the [try]. *)
Definition add_watermark_body (image_path watermark_text : string) (font_size : Z)
    (font_color : list Z) (position : string) : result image :=
  rbind (open_rgba image_path) (fun image =>
  let '(width, height) := im_size image in
  let watermark_layer := Image RGBA (im_size image) (Solid [255; 255; 255; 0]) in
  let font := load_font font_size in
  rbind (textbbox w font watermark_text) (fun '(b0, b1, b2, b3) =>
  let text_width := b2 - b0 in
  let text_height := b3 - b1 in
  match draw_origin width height text_width text_height position with
  | None => Raise KeyError
  | Some (x, y) =>
      match draw_text_error w (x, y) watermark_text font font_color with
      | Some e => Raise e
      | None =>
          let watermark_layer :=
            Image RGBA (im_size image)
              (DrawText (x, y) watermark_text font font_color (im_data watermark_layer)) in
          let watermarked_image :=
            Image RGBA (im_size image)
              (AlphaComposite (im_data image) (im_data watermark_layer)) in
          let watermarked_image :=
            if is_jpeg_path image_path then convert_rgb watermarked_image
            else watermarked_image in
          Return watermarked_image
      end
  end)).

Definition add_watermark_to_image (image_path watermark_text : string) (font_size : Z)
    (font_color : list Z) (position : string) : M (option image) :=
  try_except
    (im <- lift (add_watermark_body image_path watermark_text font_size font_color position) ;;
     ret (Some im))
    (fun e => print (WatermarkError image_path e) ;;; ret None).

(** *** [process_images_in_directory] *)

Definition supported_formats : list string :=
  [".jpg"; ".jpeg"; ".png"; ".tiff"; ".bmp"].

Definition is_supported (filename : string) : bool :=
  Py.endswith_any (Py.lower filename) supported_formats.

(** [watermarked_image.save(output_path)] *)
Definition save (output_path : string) (im : image) : M unit := fun st =>
  match save_error w output_path im with
  | Some e => (Raise e, st)
  | None => (Return tt, State (console st) (made_dirs st) (saved st ++ [(output_path, im)]))
  end.

(** The truth value of [watermark_text]: [None] and the empty string are
    false. *)
Definition truthy (watermark_text : option string) : option string :=
  match watermark_text with
  | Some (String c s) => Some (String c s)
  | _ => None
  end.

(** The [for] loop over the file names, with the running
    [processed_count]. *)
Fixpoint process_files (directory_path watermark_dir : string) (font_size : Z)
    (font_color : list Z) (position : string) (filenames : list string)
    (processed_count : Z) : M Z :=
  match filenames with
  | [] => ret processed_count
  | filename :: rest =>
      let continue := process_files directory_path watermark_dir font_size font_color
                        position rest in
      if is_supported filename then
        let image_path := path_join directory_path filename in
        watermark_text <- get_exif_datetime image_path ;;
        match truthy watermark_text with
        | None => print (NoCaptureTime filename) ;;; continue processed_count
        | Some watermark_text =>
            watermarked_image <- add_watermark_to_image image_path watermark_text
                                   font_size font_color position ;;
            match watermarked_image with
            | Some im =>
                let output_path := path_join watermark_dir filename in
                save output_path im ;;;
                print (Processed filename output_path) ;;;
                continue (processed_count + 1)
            | None => continue processed_count
            end
        end
      else continue processed_count
  end.

(** [os.listdir(directory_path)] once the output directory, which lies
    inside the directory, exists. *)
Definition listdir_after_makedirs (directory_path : string) : result (list string) :=
  rbind (listdir w directory_path) (fun names =>
  let name := basename directory_path +:+ "_watermark" in
  Return (if bool_decide (name ∈ names) then names else names ++ [name])).

(** The function has no [return] statement: its value is [None] (here
    [None : option Z]), and the count only reaches the console. *)
Definition process_images_in_directory (directory_path : string) (font_size : Z)
    (font_color : list Z) (position : string) : M (option Z) :=
  let watermark_dir :=
    path_join directory_path (basename directory_path +:+ "_watermark") in
  makedirs watermark_dir ;;;
  filenames <- lift (listdir_after_makedirs directory_path) ;;
  processed_count <- process_files directory_path watermark_dir font_size font_color
                       position filenames 0 ;;
  print (Summary processed_count) ;;;
  ret None.

End Script.

(** * The notions of the specification *)

(** ** Colors *)

(** A channel of a color value. *)
Definition channel (v : Z) : Prop := 0 <= v <= 255.

Definition is_hex_digit (c : ascii) : bool :=
  let n := Py.ord c in
  Py.between 48 57 n || Py.between 97 102 n || Py.between 65 70 n.

Definition hex_value (c : ascii) : Z :=
  let n := Py.ord c in
  if Py.between 48 57 n then n - 48
  else if Py.between 97 102 n then n - 87
  else n - 55.

Fixpoint forall_chars (p : ascii -> bool) (s : string) : bool :=
  match s with
  | EmptyString => true
  | String c s' => p c && forall_chars p s'
  end.

(** The byte values that a string of pairs of hex digits writes. *)
Fixpoint hex_bytes (h : string) : list Z :=
  match h with
  | String a (String b h') => (16 * hex_value a + hex_value b) :: hex_bytes h'
  | _ => []
  end.

(** The hex form of the specification: [#RRGGBB] or [#RRGGBBAA]. *)
Definition valid_hex_form (s : string) : bool :=
  match s with
  | String "#" h =>
      ((String.length h =? 6)%nat || (String.length h =? 8)%nat)
      && forall_chars is_hex_digit h
  | _ => false
  end.

(** A numeric component, in the widest sense: what [int] reads once the
    blanks around it are gone. *)
Definition numeric (x : string) : bool :=
  bool_decide (is_Some (Py.int (Py.strip x) 10)).

(** The decimal form of the specification: exactly 3 or 4 numeric
    components between commas. *)
Definition valid_comma_form (s : string) : bool :=
  let xs := Py.split "," s in
  ((List.length xs =? 3)%nat || (List.length xs =? 4)%nat) && forallb numeric xs.

(** What [parse_color] does accept.  In the hex branch each pair of
    characters only has to be read by [int(_, 16)], which also takes a sign
    or a blank next to one digit. *)
Definition hex_pair_ok (h : string) (i : nat) : bool :=
  bool_decide (is_Some (Py.int (Py.slice i (i + 2) h) 16)).

Definition accepted_hex (s : string) : bool :=
  Py.startswith s "#" &&
  let h := Py.slice_from 1 s in
  ((String.length h =? 6)%nat && forallb (hex_pair_ok h) [0; 2; 4]%nat)
  || ((String.length h =? 8)%nat && forallb (hex_pair_ok h) [0; 2; 4; 6]%nat).

Definition accepted_comma (s : string) : bool :=
  negb (Py.startswith s "#")
  && ((Py.count "," s =? 2)%nat || (Py.count "," s =? 3)%nat)
  && forallb numeric (Py.split "," s).

(** The shapes [parse_color] looks for before it converts anything. *)
Definition color_shape (s : string) : bool :=
  if Py.startswith s "#" then
    (String.length (Py.slice_from 1 s) =? 6)%nat || (String.length (Py.slice_from 1 s) =? 8)%nat
  else (Py.count "," s =? 2)%nat || (Py.count "," s =? 3)%nat.

(** The color texts of the specification, with the value each one writes:
    six or eight hex digits after [#], or three or four components between
    commas, each an integer in [0,255] (read as [int] reads it, blanks
    around it allowed); the alpha channel is 255 when it is not written. *)
Definition component (x : string) (v : Z) : Prop :=
  Py.count "," x = 0%nat /\ Py.int (Py.strip x) 10 = Some v /\ channel v.

Inductive color_text : string -> list Z -> Prop :=
| hex6 (h : string) :
    String.length h = 6%nat -> forall_chars is_hex_digit h = true ->
    color_text ("#" +:+ h) (hex_bytes h ++ [255])
| hex8 (h : string) :
    String.length h = 8%nat -> forall_chars is_hex_digit h = true ->
    color_text ("#" +:+ h) (hex_bytes h)
| dec3 (xs : list string) (vs : list Z) :
    List.length xs = 3%nat -> Forall2 component xs vs ->
    color_text (Py.join "," xs) (vs ++ [255])
| dec4 (xs : list string) (vs : list Z) :
    List.length xs = 4%nat -> Forall2 component xs vs ->
    color_text (Py.join "," xs) vs.

(** ** Tables for proofs by enumeration *)

Definition all_ascii : list ascii := List.map ascii_of_nat (List.seq 0 256).

(** On two hex digits [int(_, 16)] reads the byte they write. *)
Definition hex_pair_check (a b : ascii) : bool :=
  implb (is_hex_digit a && is_hex_digit b)
    match Py.int (String a (String b EmptyString)) 16 with
    | Some v => (v =? 16 * hex_value a + hex_value b) && Py.between 0 255 v
    | None => false
    end.

(** Whatever two characters [int(_, 16)] reads, the value is in [-15,255]. *)
Definition any_pair_check (a b : ascii) : bool :=
  match Py.int (String a (String b EmptyString)) 16 with
  | Some v => Py.between (-15) 255 v
  | None => true
  end.

(** ** Anchors *)

(** The nine anchors place the text along each axis near the low edge,
    in the middle, or near the high edge. *)
Inductive align : Type := Low | Middle | High.

Definition anchors : list (string * (align * align)) :=
  [ ("top-left", (Low, Low)); ("top-center", (Middle, Low)); ("top-right", (High, Low));
    ("middle-left", (Low, Middle)); ("center", (Middle, Middle));
    ("middle-right", (High, Middle));
    ("bottom-left", (Low, High)); ("bottom-center", (Middle, High));
    ("bottom-right", (High, High)) ].

Fixpoint assoc {A} (k : string) (l : list (string * A)) : option A :=
  match l with
  | [] => None
  | (k', a) :: l' => if String.eqb k k' then Some a else assoc k l'
  end.

(** The alignment of a position text (horizontal, vertical); a text that
    is no anchor counts as bottom-right. *)
Definition anchor (position : string) : align * align :=
  default (High, High) (assoc position anchors).

(** The coordinate of the text along one axis: a margin of 10 pixels from
    the edge, or centered. *)
Definition coordinate (a : align) (extent text_extent : Z) : Z :=
  match a with
  | Low => 10
  | Middle => (extent - text_extent) / 2
  | High => extent - text_extent - 10
  end.

Definition anchor_origin (width height text_width text_height : Z) (position : string)
    : Z * Z :=
  (coordinate (fst (anchor position)) width text_width,
   coordinate (snd (anchor position)) height text_height).

Definition is_anchor (position : string) : bool :=
  existsb (String.eqb position) (List.map fst anchors).

(** ** The capture date of a file and the outcome of a run *)

(** The watermark text that [process_images_in_directory] gets for a file:
    the result of [get_exif_datetime] when it is true. *)
Definition capture_date (w : world) (image_path : string) : option string :=
  match get_exif_datetime_body w image_path with
  | Return date => truthy date
  | Raise _ => None
  end.

(** The names that [os.listdir] gives; none when it raises. *)
Definition listing (w : world) (directory_path : string) : list string :=
  match listdir w directory_path with
  | Return names => names
  | Raise _ => []
  end.

Definition supported_files (w : world) (directory_path : string) : list string :=
  List.filter is_supported (listing w directory_path).

Definition watermark_dir_of (directory_path : string) : string :=
  path_join directory_path (basename directory_path +:+ "_watermark").

Definition lacks_date (w : world) (directory_path filename : string) : bool :=
  match capture_date w (path_join directory_path filename) with
  | Some _ => false
  | None => true
  end.

(** A file with a capture date composites and saves. *)
Definition composites_and_saves (w : world) (directory_path : string) (font_size : Z)
    (font_color : list Z) (position filename : string) : bool :=
  let image_path := path_join directory_path filename in
  match capture_date w image_path with
  | None => true
  | Some text =>
      match add_watermark_body w image_path text font_size font_color position with
      | Return im =>
          match save_error w (path_join (watermark_dir_of directory_path) filename) im with
          | None => true
          | Some _ => false
          end
      | Raise _ => false
      end
  end.

(** ** A sample directory *)

(** As Pillow lists a camera file: the tags of the main directory, with
    [DateTime], before those of the Exif directory, with
    [DateTimeOriginal]. *)
Definition sample_exif : list (Z * exif_value) :=
  [ (0x010F, ExifStr "Canon"); (0x0112, ExifOther);
    (0x0132, ExifStr "2024:03:16 08:00:00"); (0x9003, ExifStr "2024:03:15 10:20:30") ].

(** The camera clock was never set: [DateTime] is no date, and a valid
    [DateTimeOriginal] follows it. *)
Definition unset_clock_exif : list (Z * exif_value) :=
  [ (0x010F, ExifStr "Canon"); (0x0132, ExifStr "0000:00:00 00:00:00");
    (0x9003, ExifStr "2024:03:15 10:20:30") ].

Definition sample_open (path : string) : result image_file :=
  if String.eqb path "photos/a.jpg" then
    Return (ImageFile RGB (200, 100) (Return (Some sample_exif)) None)
  else if String.eqb path "photos/c.JPG" then
    Return (ImageFile RGB (640, 480) (Return None) None)
  else if String.eqb path "photos/d.jpeg" then
    Return (ImageFile RGB (640, 480) (Return (Some unset_clock_exif)) None)
  else if String.eqb path "photos/e.bmp" then
    Return (ImageFile RGB (32, 32) (Raise AttributeError) None)
  else if String.eqb path "photos/f.png" then
    Return (ImageFile RGBA (300, 200) (Return (Some sample_exif)) None)
  else Raise OSError.

Definition sample_listdir (path : string) : result (list string) :=
  if String.eqb path "photos" then
    Return ["a.jpg"; "notes.txt"; "c.JPG"; "d.jpeg"; "e.bmp"; "f.png"]
  else Raise OSError.

Definition sample_truetype (file : string) (size : Z) : result font :=
  if String.eqb file "DejaVuSans.ttf" then Return (TrueType file size) else Raise OSError.

(** [draw.text] refuses a fill with a channel that is no C integer. *)
Definition sample_draw_text_error (xy : Z * Z) (text : string) (f : font)
    (fill : list Z) : option exn :=
  if forallb (fun v => Py.between (- 2 ^ 31) (2 ^ 31 - 1) v) fill then None
  else Some OverflowError.

Definition sample_world : world :=
  World sample_open (fun _ => None) sample_listdir sample_truetype
    (fun _ _ => Return (0, 4, 41, 15))
    sample_draw_text_error
    (fun _ _ => None)
    false.

(** The same directory when the first write fails. *)
Definition full_disk_world : world :=
  World sample_open (fun _ => None) sample_listdir sample_truetype
    (fun _ _ => Return (0, 4, 41, 15))
    sample_draw_text_error
    (fun path _ =>
       if String.eqb path "photos/photos_watermark/a.jpg" then Some OSError else None)
    false.

(** The same directory when it cannot be written to. *)
Definition read_only_world : world :=
  World sample_open (fun _ => Some OSError) sample_listdir sample_truetype
    (fun _ _ => Return (0, 4, 41, 15))
    sample_draw_text_error
    (fun _ _ => None)
    false.

(** The same directory when the text cannot be measured. *)
Definition no_text_world : world :=
  World sample_open (fun _ => None) sample_listdir sample_truetype
    (fun _ _ => Raise ValueError)
    sample_draw_text_error
    (fun _ _ => None)
    false.

(** A world whose every file holds one tag, [DateTimeOriginal]. *)
Definition single_tag_world (value : string) : world :=
  World (fun _ => Return (ImageFile RGB (200, 100)
                        (Return (Some [(0x9003, ExifStr value)])) None))
    (fun _ => None) (fun _ => Return []) (fun _ _ => Raise OSError)
    (fun _ _ => Raise OSError) (fun _ _ _ _ => None) (fun _ _ => None) false.

Definition white_half : list Z := [255; 255; 255; 128].


(** ** Capture times *)

(** The Exif text of a date and time: ["YYYY:MM:DD HH:MM:SS"]. *)
Definition exif_timestamp (dt : Strptime.datetime) : string :=
  Strptime.pad4 (Strptime.year dt) +:+ ":" +:+ Strptime.pad2 (Strptime.month dt) +:+ ":"
  +:+ Strptime.pad2 (Strptime.day dt) +:+ " " +:+ Strptime.pad2 (Strptime.hour dt) +:+ ":"
  +:+ Strptime.pad2 (Strptime.minute dt) +:+ ":" +:+ Strptime.pad2 (Strptime.second dt).

(** The date of it: ["YYYY-MM-DD"]. *)
Definition date_text (dt : Strptime.datetime) : string :=
  Strptime.pad4 (Strptime.year dt) +:+ "-" +:+ Strptime.pad2 (Strptime.month dt) +:+ "-"
  +:+ Strptime.pad2 (Strptime.day dt).

(** The numbers of the tags [DateTime], [DateTimeOriginal] and
    [DateTimeDigitized]. *)
Definition date_tag_ids : list Z := [0x0132; 0x9003; 0x9004].

Definition is_date_id (tag_id : Z) : bool := existsb (Z.eqb tag_id) date_tag_ids.

Definition no_date_tag (items : list (Z * exif_value)) : Prop :=
  Forall (fun item => is_date_id (fst item) = false) items.

(** [int] reads the digits that [pad2] and [pad4] write. *)
Definition pad2_check (n : Z) : bool :=
  match Py.int (Strptime.pad2 n) 10 with
  | Some v => v =? n
  | None => false
  end.

Definition pad4_check (n : Z) : bool :=
  match Py.int (Strptime.pad4 n) 10 with
  | Some v => v =? n
  | None => false
  end.

(** A file without a readable capture time: it does not open, its
    metadata cannot be read or is missing or has no date tag, or the value
    of its first date tag is no capture time. *)
Inductive no_capture_time (w : world) (image_path : string) : Prop :=
| open_fails (e : exn) :
    image_open w image_path = Raise e -> no_capture_time w image_path
| metadata_unreadable (f : image_file) (e : exn) :
    image_open w image_path = Return f -> file_getexif f = Raise e ->
    no_capture_time w image_path
| metadata_missing (f : image_file) :
    image_open w image_path = Return f -> file_getexif f = Return None ->
    no_capture_time w image_path
| no_date (f : image_file) (items : list (Z * exif_value)) :
    image_open w image_path = Return f -> file_getexif f = Return (Some items) ->
    no_date_tag items -> no_capture_time w image_path
| unparseable (f : image_file) (before after : list (Z * exif_value)) (tag_id : Z)
    (value : exif_value) (e : exn) :
    image_open w image_path = Return f ->
    file_getexif f = Return (Some (before ++ (tag_id, value) :: after)) ->
    no_date_tag before -> is_date_id tag_id = true ->
    strptime_value value = Raise e ->
    no_capture_time w image_path.

(** The state after one more line on the console. *)
Definition printed (st : state) (m : message) : state :=
  State (console st ++ [m]) (made_dirs st) (saved st).

(** The supported files that have a capture date. *)
Definition dated_files (w : world) (directory_path : string) : list string :=
  List.filter (fun filename => negb (lacks_date w directory_path filename))
    (supported_files w directory_path).

(** ** Notions for the compositor *)

(** The origin that the anchor rule gives the text of an image of size
    [size] whose text measures [bbox] at the origin. *)
Definition text_origin (size : Z * Z) (bbox : Z * Z * Z * Z) (position : string) : Z * Z :=
  let '(W, H) := size in
  let '(b0, b1, b2, b3) := bbox in
  if is_anchor position then anchor_origin W H (b2 - b0) (b3 - b1) position
  else (W - (b2 - b0) - 10, H - (b3 - b1) - 10).

(** The box of the ink of a text drawn at [xy], when [textbbox] measures
    [bbox] for it at [(0, 0)]: Pillow places the box relative to the point
    it is given, so the box moves with the point. *)
Definition drawn_box (xy : Z * Z) (bbox : Z * Z * Z * Z) : Z * Z * Z * Z :=
  let '(x, y) := xy in
  let '(b0, b1, b2, b3) := bbox in
  (x + b0, y + b1, x + b2, y + b3).

(** From year 1000 on, the year has four digits without padding. *)
Definition year_text_check (y : Z) : bool :=
  implb (1000 <=? y) (String.eqb (Strptime.drop_zeros (Strptime.pad4 y)) (Strptime.pad4 y)).

(** ** Tactics *)

(** Splits [forall_chars p s = true], for [s] given by its characters. *)
Ltac split_chars H :=
  cbn [forall_chars] in H;
  repeat (let Hc := fresh "Hc" in apply andb_true_iff in H as [Hc H]).

(** Proves [exists tl, _ = _ :: tl] for each natural number below [bound]. *)
Tactic Notation "enumerate" constr(n) constr(bound) integer(count) :=
  let k := fresh "k" in
  let Hk := fresh "Hk" in
  assert (exists k : nat, (k < bound)%nat /\ n = Z.of_nat k) as (k & Hk & ->)
    by (exists (Z.to_nat n); lia);
  do count (destruct k as [|k]; [try lia; eexists; reflexivity|]);
  lia.

(** ** [main] *)

Module Args.

(** The namespace that [parser.parse_args()] returns. *)
Record namespace : Type := Namespace {
  directory : string;
  font_size : Z;
  color : list Z;
  position : string
}.

End Args.

(** The [choices] of [--position]. *)
Definition position_choices : list string :=
  [ "top-left"; "top-center"; "top-right";
    "middle-left"; "center"; "middle-right";
    "bottom-left"; "bottom-center"; "bottom-right" ].

(** The [default] of [--color]; the help text writes it [#FFFFFF80]. *)
Definition default_color : list Z := [255; 255; 255; 128].

(** The lines that [main] prints itself. *)
Inductive main_message : Type :=
| DirectoryMissing (directory : string)
| StartDirectory (directory : string)
| FontSize (font_size : Z)
| FontColor (color : list Z)
| WatermarkPosition (position : string).

(** [main] from the line after [parser.parse_args()] on; [isdir] is
    [os.path.isdir].  What [main] prints itself comes before every line of
    [process_images_in_directory], and is returned beside the run. *)
Definition main (w : world) (isdir : string -> bool) (args : Args.namespace)
    : state -> list main_message * (result unit * state) := fun st =>
  if negb (isdir (Args.directory args)) then
    ([DirectoryMissing (Args.directory args)], (Return tt, st))
  else
    ([ StartDirectory (Args.directory args); FontSize (Args.font_size args);
       FontColor (Args.color args); WatermarkPosition (Args.position args) ],
     (process_images_in_directory w (Args.directory args) (Args.font_size args)
        (Args.color args) (Args.position args) ;;;
      ret tt) st).

(** ** More notions for the properties *)

(** The text of a date, by its shape: ["dddd-dd-dd"]. *)
Definition is_date_text (s : string) : bool :=
  match s with
  | String y1 (String y2 (String y3 (String y4 (String "-"
      (String m1 (String m2 (String "-" (String d1 (String d2 EmptyString))))))))) =>
      forallb Py.isdecimal [y1; y2; y3; y4; m1; m2; d1; d2]
  | _ => false
  end.

(** A color written in the hex form, two lower-case digits a channel. *)
Definition hex_digit (n : Z) : ascii :=
  if n <? 10 then ascii_of_N (Z.to_N (48 + n)) else ascii_of_N (Z.to_N (87 + n)).

Fixpoint hex_digits (c : list Z) : string :=
  match c with
  | [] => EmptyString
  | v :: c' => String (hex_digit (v / 16)) (String (hex_digit (v mod 16)) (hex_digits c'))
  end.

Definition to_hex (c : list Z) : string := String "#" (hex_digits c).

(** One channel written and read back. *)
Definition hex_digits_check (v : Z) : bool :=
  is_hex_digit (hex_digit (v / 16)) && is_hex_digit (hex_digit (v mod 16))
  && (16 * hex_value (hex_digit (v / 16)) + hex_value (hex_digit (v mod 16)) =? v).

(** [int(_, 16)] reads two characters and their lower-case forms alike. *)
Definition lower_pair_check (a b : ascii) : bool :=
  match Py.int (String a (String b EmptyString)) 16,
        Py.int (String (Py.lower_char a) (String (Py.lower_char b) EmptyString)) 16 with
  | Some u, Some v => u =? v
  | None, None => true
  | _, _ => false
  end.

(** * The properties of the specification *)

(** ** Sample runs *)

Example int_ex1 : Py.int "ff" 16 = Some 255.
Proof. reflexivity. Qed.
Example int_ex2 : Py.int "-f" 16 = Some (-15).
Proof. reflexivity. Qed.
Example int_ex3 : Py.int " 7" 16 = Some 7.
Proof. reflexivity. Qed.
Example int_ex4 : Py.int "0x1F" 16 = Some 31.
Proof. reflexivity. Qed.
Example int_ex5 : Py.int "0x" 16 = None.
Proof. reflexivity. Qed.
Example int_ex6 : Py.int "1_0" 10 = Some 10.
Proof. reflexivity. Qed.
Example int_ex7 : Py.int "1__0" 10 = None.
Proof. reflexivity. Qed.
Example int_ex8 : Py.int "1_" 10 = None.
Proof. reflexivity. Qed.
Example int_ex9 : Py.int "+ 1" 10 = None.
Proof. reflexivity. Qed.
Example int_ex10 : Py.int "" 10 = None.
Proof. reflexivity. Qed.
Example int_ex11 : Py.int "1.5" 10 = None.
Proof. reflexivity. Qed.
Example strip_ex1 : Py.strip "  12 " = "12".
Proof. reflexivity. Qed.
Example split_ex1 : Py.split "," "1,,3" = ["1"; ""; "3"].
Proof. reflexivity. Qed.
Example endswith_ex1 : Py.endswith (Py.lower "IMG_01.JPG") ".jpg" = true.
Proof. reflexivity. Qed.
Example basename_ex1 : basename "/home/me/photos" = "photos".
Proof. reflexivity. Qed.
Example path_join_ex1 : path_join "photos" "photos_watermark" = "photos/photos_watermark".
Proof. reflexivity. Qed.
Example path_join_ex2 : path_join "photos/" "_watermark" = "photos/_watermark".
Proof. reflexivity. Qed.

Example parse_color_ex1 : parse_color "#FFFFFF80" = Return [255; 255; 255; 128].
Proof. vm_compute. reflexivity. Qed.
Example parse_color_ex2 : parse_color "#ff8000" = Return [255; 128; 0; 255].
Proof. vm_compute. reflexivity. Qed.
Example parse_color_ex3 : parse_color " 1, 2 ,3 " = Return [1; 2; 3; 255].
Proof. vm_compute. reflexivity. Qed.
Example parse_color_ex4 : parse_color "bogus" = Raise (ArgumentTypeError "bogus").
Proof. vm_compute. reflexivity. Qed.
Example parse_color_ex5 : parse_color "#12" = Raise (ArgumentTypeError "12").
Proof. vm_compute. reflexivity. Qed.
Example parse_color_ex6 : parse_color "1,x,3" = Raise ValueError.
Proof. vm_compute. reflexivity. Qed.
Example parse_color_ex7 : parse_color "#+1+2+3" = Return [1; 2; 3; 255].
Proof. vm_compute. reflexivity. Qed.
Example parse_color_ex8 : parse_color "256,0,0" = Return [256; 0; 0; 255].
Proof. vm_compute. reflexivity. Qed.
Example strptime_ex1 :
  Strptime.strptime "2024:03:15 10:20:30" = Return (Strptime.Datetime 2024 3 15 10 20 30).
Proof. vm_compute. reflexivity. Qed.
Example strptime_ex2 : Strptime.strptime "2024:3:5   1:2:3" = Return (Strptime.Datetime 2024 3 5 1 2 3).
Proof. vm_compute. reflexivity. Qed.
Example strptime_ex3 : Strptime.strptime "0000:00:00 00:00:00" = Raise ValueError.
Proof. vm_compute. reflexivity. Qed.
Example strptime_ex4 : Strptime.strptime "2023:02:29 10:20:30" = Raise ValueError.
Proof. vm_compute. reflexivity. Qed.
Example strptime_ex5 : Strptime.strptime "2024:03:15 10:20:30 " = Raise ValueError.
Proof. vm_compute. reflexivity. Qed.
Example strftime_ex1 :
  Strptime.strftime false (Strptime.Datetime 2024 3 15 10 20 30) = "2024-03-15".
Proof. vm_compute. reflexivity. Qed.
Example strftime_ex2 :
  Strptime.strftime false (Strptime.Datetime 999 1 1 0 0 0) = "999-01-01".
Proof. vm_compute. reflexivity. Qed.
Example strftime_ex3 :
  Strptime.strftime true (Strptime.Datetime 999 1 1 0 0 0) = "0999-01-01".
Proof. vm_compute. reflexivity. Qed.

(** ** Results and comprehensions *)

Lemma rmap_Return {A B} (f : A -> result B) (l : list A) (ys : list B) :
  rmap f l = Return ys <-> Forall2 (fun x y => f x = Return y) l ys.
Proof.
  revert ys. induction l as [|x l IH]; intros ys; simpl.
  - split.
    + intros [= <-]. constructor.
    + intros H. inversion H. reflexivity.
  - destruct (f x) as [y|e] eqn:Hx; simpl.
    + destruct (rmap f l) as [zs|e] eqn:Hl; simpl.
      * split.
        -- intros [= <-]. constructor; [exact Hx | now apply IH].
        -- intros H. inversion H as [|? y' ? zs' Hy Hzs]; subst.
           rewrite Hx in Hy. injection Hy as <-.
           apply IH in Hzs. now injection Hzs as <-.
      * split; [discriminate|].
        intros H. inversion H as [|? y' ? zs' Hy Hzs]; subst.
        apply IH in Hzs. discriminate.
    + split; [discriminate|].
      intros H. inversion H as [|? y' ? zs' Hy Hzs]; subst. congruence.
Qed.

Lemma rmap_length {A B} (f : A -> result B) (l : list A) (ys : list B) :
  rmap f l = Return ys -> List.length ys = List.length l.
Proof.
  intros H. apply rmap_Return in H. symmetry. eapply Forall2_length, H.
Qed.

(** A comprehension over [int] raises nothing but [ValueError]. *)
Lemma rmap_int_cases {A} (g : A -> string) (base : Z) (l : list A) :
  (exists ys, rmap (fun x => Py.int_or_raise (g x) base) l = Return ys)
  \/ (rmap (fun x => Py.int_or_raise (g x) base) l = Raise ValueError
      /\ exists x, In x l /\ Py.int (g x) base = None).
Proof.
  induction l as [|x l IH]; simpl.
  - left. now eexists.
  - unfold Py.int_or_raise at 1 3.
    destruct (Py.int (g x) base) as [v|] eqn:Hx; simpl.
    + destruct IH as [[ys ->]|[-> [x' [Hin Hx']]]]; simpl.
      * left. now eexists.
      * right. split; [reflexivity|]. exists x'. auto.
    + right. split; [reflexivity|]. exists x. auto.
Qed.

Lemma rmap_int_Return {A} (g : A -> string) (base : Z) (l : list A) :
  forallb (fun x => bool_decide (is_Some (Py.int (g x) base))) l = true ->
  exists ys, rmap (fun x => Py.int_or_raise (g x) base) l = Return ys.
Proof.
  intros H. destruct (rmap_int_cases g base l) as [Hok|[_ [x [Hin Hx]]]]; [exact Hok|].
  rewrite forallb_forall in H. specialize (H x Hin).
  rewrite Hx in H. apply bool_decide_eq_true in H. destruct H as [? [=]].
Qed.

Lemma rmap_int_Raise {A} (g : A -> string) (base : Z) (l : list A) :
  forallb (fun x => bool_decide (is_Some (Py.int (g x) base))) l = false ->
  rmap (fun x => Py.int_or_raise (g x) base) l = Raise ValueError.
Proof.
  induction l as [|x l IH]; simpl; [discriminate|].
  unfold Py.int_or_raise at 1.
  destruct (Py.int (g x) base) as [v|] eqn:Hx; simpl; [|reflexivity].
  intros H. now rewrite IH.
Qed.

(** ** Strings *)

Lemma all_ascii_complete (c : ascii) : In c all_ascii.
Proof.
  rewrite <- (ascii_nat_embedding c). apply in_map, in_seq.
  pose proof (nat_ascii_bounded c). lia.
Qed.

Lemma forall_ascii2 (p : ascii -> ascii -> bool) :
  forallb (fun a => forallb (p a) all_ascii) all_ascii = true ->
  forall a b, p a b = true.
Proof.
  intros H a b. rewrite forallb_forall in H.
  specialize (H a (all_ascii_complete a)). rewrite forallb_forall in H.
  exact (H b (all_ascii_complete b)).
Qed.

Lemma hex_pair (a b : ascii) :
  is_hex_digit a = true -> is_hex_digit b = true ->
  Py.int (String a (String b EmptyString)) 16 = Some (16 * hex_value a + hex_value b)
  /\ channel (16 * hex_value a + hex_value b).
Proof.
  intros Ha Hb.
  assert (hex_pair_check a b = true) as H.
  { apply forall_ascii2. vm_compute. reflexivity. }
  unfold hex_pair_check in H. rewrite Ha, Hb in H. simpl in H.
  destruct (Py.int _ 16) as [v|]; [|discriminate].
  apply andb_true_iff in H as [Hv Hr]. apply Z.eqb_eq in Hv. subst v.
  split; [reflexivity|].
  unfold Py.between in Hr. apply andb_true_iff in Hr as [H1 H2].
  unfold channel. lia.
Qed.

Lemma any_pair (a b : ascii) (v : Z) :
  Py.int (String a (String b EmptyString)) 16 = Some v -> -15 <= v <= 255.
Proof.
  intros Hv.
  assert (any_pair_check a b = true) as H.
  { apply forall_ascii2. vm_compute. reflexivity. }
  unfold any_pair_check in H. rewrite Hv in H.
  unfold Py.between in H. apply andb_true_iff in H as [H1 H2]. lia.
Qed.

Lemma count_append (c : ascii) (x y : string) :
  Py.count c (x +:+ y) = (Py.count c x + Py.count c y)%nat.
Proof. induction x as [|a x IH]; simpl; [reflexivity|]. rewrite IH. lia. Qed.

Lemma count_sep (c : ascii) (y : string) :
  Py.count c (String c y) = S (Py.count c y).
Proof. simpl. now rewrite Ascii.eqb_refl. Qed.

Lemma split_nonempty (c : ascii) (s : string) : Py.split c s <> [].
Proof.
  destruct s as [|a s]; simpl; [discriminate|].
  destruct (Ascii.eqb a c); [discriminate|].
  destruct (Py.split c s); discriminate.
Qed.

Lemma split_no_sep (c : ascii) (x : string) :
  Py.count c x = 0%nat -> Py.split c x = [x].
Proof.
  induction x as [|a x IH]; simpl; [reflexivity|].
  destruct (Ascii.eqb a c); [discriminate|]. simpl.
  intros H. now rewrite IH.
Qed.

Lemma split_append_sep (c : ascii) (x y : string) :
  Py.count c x = 0%nat -> Py.split c (x +:+ String c y) = x :: Py.split c y.
Proof.
  induction x as [|a x IH]; simpl.
  - intros _. now rewrite Ascii.eqb_refl.
  - destruct (Ascii.eqb a c); [discriminate|]. simpl.
    intros H. now rewrite IH.
Qed.

Lemma join_cons (c : ascii) (x y : string) (xs : list string) :
  Py.join c (x :: y :: xs) = x +:+ String c (Py.join c (y :: xs)).
Proof. reflexivity. Qed.

Lemma split_join (c : ascii) (xs : list string) :
  xs <> [] -> Forall (fun x => Py.count c x = 0%nat) xs ->
  Py.split c (Py.join c xs) = xs.
Proof.
  induction xs as [|x xs IH]; [congruence|].
  intros _ H. inversion H as [|? ? Hx Hxs]; subst.
  destruct xs as [|y xs].
  - simpl. now apply split_no_sep.
  - rewrite join_cons, split_append_sep by exact Hx.
    now rewrite IH.
Qed.

Lemma count_join (c : ascii) (xs : list string) :
  Forall (fun x => Py.count c x = 0%nat) xs ->
  Py.count c (Py.join c xs) = (List.length xs - 1)%nat.
Proof.
  induction xs as [|x xs IH]; [reflexivity|].
  intros H. inversion H as [|? ? Hx Hxs]; subst.
  destruct xs as [|y xs].
  - simpl. exact Hx.
  - rewrite join_cons, count_append, count_sep, Hx, IH by exact Hxs.
    simpl. lia.
Qed.

(** A text that starts with [#] is no integer, with or without blanks. *)
Lemma int_hash (s : string) (base : Z) : Py.int (String "#" s) base = None.
Proof. reflexivity. Qed.

Lemma rstrip_hash (s : string) : exists r, Py.rstrip (String "#" s) = String "#" r.
Proof.
  simpl. destruct (Py.rstrip s); eexists; reflexivity.
Qed.

Lemma strip_hash (s : string) : exists r, Py.strip (String "#" s) = String "#" r.
Proof. unfold Py.strip. change (Py.lstrip (String "#" s)) with (String "#" s). apply rstrip_hash. Qed.

Lemma startswith_append_hash (x y : string) :
  Py.startswith (x +:+ y) "#" = true -> x = EmptyString \/ exists x', x = String "#" x'.
Proof.
  destruct x as [|a x]; [now left|]. cbn [String.append Py.startswith].
  intros H. apply andb_true_iff in H as [H _]. apply Ascii.eqb_eq in H. subst a.
  right. now eexists.
Qed.

Lemma component_no_hash (x y : string) (v : Z) :
  Py.int (Py.strip x) 10 = Some v -> Py.startswith (x +:+ y) "#" = false.
Proof.
  intros Hv. destruct (Py.startswith (x +:+ y) "#") eqn:Hs; [|reflexivity].
  apply startswith_append_hash in Hs as [->|[x' ->]].
  - discriminate.
  - destruct (strip_hash x') as [r Hr]. rewrite Hr, int_hash in Hv. discriminate.
Qed.

Lemma join_head (c : ascii) (x : string) (xs : list string) :
  exists y, Py.join c (x :: xs) = x +:+ y.
Proof.
  destruct xs as [|y xs].
  - exists EmptyString. simpl. clear. induction x as [|a x IH]; [reflexivity|].
    change (String a x = String a (x +:+ "")). f_equal. exact IH.
  - eexists. apply join_cons.
Qed.

(** ** [parse_color] *)

Lemma parse_color_hash (h : string) :
  parse_color (String "#" h) =
  if (String.length h =? 6)%nat then
    rbind (hex_channels h [0; 2; 4]%nat) (fun t => Return (t ++ [255]))
  else if (String.length h =? 8)%nat then hex_channels h [0; 2; 4; 6]%nat
  else Raise (ArgumentTypeError h).
Proof. reflexivity. Qed.

Lemma parse_color_no_hash (s : string) :
  Py.startswith s "#" = false ->
  parse_color s =
  if (Py.count "," s =? 2)%nat || (Py.count "," s =? 3)%nat then
    rbind (rmap (fun x => Py.int_or_raise (Py.strip x) 10) (Py.split "," s))
      (fun values =>
         if (List.length values =? 3)%nat then Return (values ++ [255])
         else if (List.length values =? 4)%nat then Return values
         else Raise (ArgumentTypeError s))
  else Raise (ArgumentTypeError s).
Proof. intros H. unfold parse_color. now rewrite H. Qed.

Lemma hex_channels_6 (h : string) :
  String.length h = 6%nat -> forall_chars is_hex_digit h = true ->
  hex_channels h [0; 2; 4]%nat = Return (hex_bytes h) /\ Forall channel (hex_bytes h).
Proof.
  intros Hlen Hhex.
  do 6 (destruct h as [|? h]; [discriminate Hlen|]).
  destruct h; [|discriminate Hlen].
  split_chars Hhex.
  unfold hex_channels. cbn -[Py.int Z.mul Z.add]. unfold Py.int_or_raise.
  repeat match goal with
    | Ha : is_hex_digit ?a = true, Hb : is_hex_digit ?b = true
      |- context [Py.int (String ?a (String ?b EmptyString)) 16] =>
        rewrite (proj1 (hex_pair a b Ha Hb)); cbn -[Py.int Z.mul Z.add]
    end.
  split; [reflexivity|].
  repeat constructor; now apply hex_pair.
Qed.

Lemma hex_channels_8 (h : string) :
  String.length h = 8%nat -> forall_chars is_hex_digit h = true ->
  hex_channels h [0; 2; 4; 6]%nat = Return (hex_bytes h) /\ Forall channel (hex_bytes h).
Proof.
  intros Hlen Hhex.
  do 8 (destruct h as [|? h]; [discriminate Hlen|]).
  destruct h; [|discriminate Hlen].
  split_chars Hhex.
  unfold hex_channels. cbn -[Py.int Z.mul Z.add]. unfold Py.int_or_raise.
  repeat match goal with
    | Ha : is_hex_digit ?a = true, Hb : is_hex_digit ?b = true
      |- context [Py.int (String ?a (String ?b EmptyString)) 16] =>
        rewrite (proj1 (hex_pair a b Ha Hb)); cbn -[Py.int Z.mul Z.add]
    end.
  split; [reflexivity|].
  repeat constructor; now apply hex_pair.
Qed.

Lemma component_values (xs : list string) (vs : list Z) :
  Forall2 component xs vs ->
  rmap (fun x => Py.int_or_raise (Py.strip x) 10) xs = Return vs
  /\ Forall (fun x => Py.count "," x = 0%nat) xs
  /\ Forall channel vs.
Proof.
  intros H. split; [|split].
  - apply rmap_Return. eapply Forall2_impl; [exact H|].
    intros x v (_ & Hv & _). unfold Py.int_or_raise. now rewrite Hv.
  - induction H as [|x v xs vs (Hx & _ & _) _ IH]; constructor; auto.
  - induction H as [|x v xs vs (_ & _ & Hv) _ IH]; constructor; auto.
Qed.

Lemma parse_color_components (xs : list string) (vs : list Z) :
  (List.length xs = 3 \/ List.length xs = 4)%nat ->
  Forall2 component xs vs ->
  parse_color (Py.join "," xs) =
  Return (if (List.length xs =? 3)%nat then vs ++ [255] else vs).
Proof.
  intros Hlen H.
  destruct (component_values xs vs H) as (Hvs & Hsep & _).
  assert (List.length vs = List.length xs) as Hlv by (eapply rmap_length, Hvs).
  assert (xs <> []) as Hne by (intros ->; simpl in Hlen; lia).
  assert (Py.startswith (Py.join "," xs) "#" = false) as Hs.
  { destruct H as [|x v xs vs (_ & Hv & _) _]; [congruence|].
    destruct (join_head "," x xs) as [y ->].
    eapply component_no_hash, Hv. }
  rewrite (parse_color_no_hash _ Hs), count_join, split_join, Hvs by assumption.
  simpl rbind. rewrite Hlv.
  destruct Hlen as [-> | ->]; reflexivity.
Qed.

(** C4: on the color texts of the specification [parse_color] returns the
    value the text writes: the bytes of the hex digit pairs, or the decimal
    components, with alpha 255 where the text has three channels. *)
Theorem parse_color_valid_text (s : string) (c : list Z) :
  color_text s c -> parse_color s = Return c.
Proof.
  intros [h Hlen Hhex | h Hlen Hhex | xs vs Hlen H | xs vs Hlen H].
  - change ("#" +:+ h) with (String "#" h).
    rewrite parse_color_hash, Hlen. simpl.
    now rewrite (proj1 (hex_channels_6 h Hlen Hhex)).
  - change ("#" +:+ h) with (String "#" h).
    rewrite parse_color_hash, Hlen. simpl.
    apply (hex_channels_8 h Hlen Hhex).
  - rewrite (parse_color_components xs vs) by auto. now rewrite Hlen.
  - rewrite (parse_color_components xs vs) by auto. now rewrite Hlen.
Qed.

Lemma parse_color_valid_text_witness :
  (color_text "#ff8000" [255; 128; 0; 255]
   /\ parse_color "#ff8000" = Return [255; 128; 0; 255])
  /\ (color_text "#FFFFFF80" [255; 255; 255; 128]
      /\ parse_color "#FFFFFF80" = Return [255; 255; 255; 128])
  /\ (color_text "10, 20,30" [10; 20; 30; 255]
      /\ parse_color "10, 20,30" = Return [10; 20; 30; 255])
  /\ (color_text "0,255,7,128" [0; 255; 7; 128]
      /\ parse_color "0,255,7,128" = Return [0; 255; 7; 128]).
Proof.
  assert (color_text "#ff8000" [255; 128; 0; 255]) as H1.
  { apply (hex6 "ff8000"); reflexivity. }
  assert (color_text "#FFFFFF80" [255; 255; 255; 128]) as H2.
  { apply (hex8 "FFFFFF80"); reflexivity. }
  assert (color_text "10, 20,30" [10; 20; 30; 255]) as H3.
  { apply (dec3 ["10"; " 20"; "30"] [10; 20; 30]); [reflexivity|].
    repeat constructor; unfold channel; lia. }
  assert (color_text "0,255,7,128" [0; 255; 7; 128]) as H4.
  { apply (dec4 ["0"; "255"; "7"; "128"] [0; 255; 7; 128]); [reflexivity|].
    repeat constructor; unfold channel; lia. }
  exact (conj (conj H1 (parse_color_valid_text _ _ H1))
           (conj (conj H2 (parse_color_valid_text _ _ H2))
              (conj (conj H3 (parse_color_valid_text _ _ H3))
                 (conj H4 (parse_color_valid_text _ _ H4))))).
Defined.

Lemma startswith_hash (s : string) :
  Py.startswith s "#" = true -> exists h, s = String "#" h.
Proof.
  destruct s as [|a s]; [discriminate|]. cbn [Py.startswith].
  intros H. apply andb_true_iff in H as [H _]. apply Ascii.eqb_eq in H. subst a.
  now eexists.
Qed.

Lemma length_split (c : ascii) (s : string) :
  List.length (Py.split c s) = S (Py.count c s).
Proof.
  induction s as [|a s IH]; [reflexivity|]. simpl.
  destruct (Ascii.eqb a c); simpl; [now rewrite IH|].
  destruct (Py.split c s); simpl in *; congruence.
Qed.

Lemma hex_channels_range (h : string) (idx : list nat) (c : list Z) :
  Forall (fun i => String.length (Py.slice i (i + 2) h) = 2%nat) idx ->
  hex_channels h idx = Return c -> Forall (fun v => -15 <= v <= 255) c.
Proof.
  intros Hidx H. apply rmap_Return in H.
  induction H as [|i v idx c Hv _ IH]; constructor.
  - inversion Hidx as [|? ? Hi _]; subst.
    destruct (Py.slice i (i + 2) h) as [|a [|b [|? ?]]]; try discriminate Hi.
    unfold Py.int_or_raise in Hv.
    destruct (Py.int (String a (String b "")) 16) as [v'|] eqn:Hp; [|discriminate].
    injection Hv as <-. eapply any_pair, Hp.
  - apply IH. now inversion Hidx.
Qed.

Lemma valid_hex_form_inv (s : string) :
  valid_hex_form s = true ->
  exists h, s = String "#" h
    /\ (String.length h = 6 \/ String.length h = 8)%nat
    /\ forall_chars is_hex_digit h = true.
Proof.
  destruct s as [|a h]; [discriminate|].
  destruct (Ascii.ascii_dec a "#") as [->|Hne].
  - cbn [valid_hex_form]. intros H. apply andb_true_iff in H as [Hl Hh].
    exists h. split; [reflexivity|]. split; [|exact Hh].
    apply orb_true_iff in Hl as [Hl|Hl]; apply Nat.eqb_eq in Hl; auto.
  - intros H. exfalso. apply Hne.
    destruct a as [[] [] [] [] [] [] [] []]; try discriminate H. reflexivity.
Qed.

(** C3, as the code has it: a value that [parse_color] returns has four
    channels.  Each lies in [0,255] when the text is the hex form written
    with hex digits, and when every decimal component is written in
    [0,255]; the function itself checks no range, so the hex form can give
    channels down to -15 (a sign and one digit) and the decimal form gives
    the integers as written. *)
Theorem parse_color_channels (s : string) (c : list Z) :
  parse_color s = Return c ->
  List.length c = 4%nat
  /\ (valid_hex_form s = true -> Forall channel c)
  /\ (Py.startswith s "#" = true -> Forall (fun v => -15 <= v <= 255) c)
  /\ (Py.startswith s "#" = false ->
      Forall (fun x => exists v, Py.int (Py.strip x) 10 = Some v /\ channel v)
        (Py.split "," s) ->
      Forall channel c).
Proof.
  intros Hc. destruct (Py.startswith s "#") eqn:Hs.
  - destruct (startswith_hash s Hs) as [h ->].
    rewrite parse_color_hash in Hc.
    destruct (String.length h =? 6)%nat eqn:H6;
      [|destruct (String.length h =? 8)%nat eqn:H8; [|discriminate Hc]].
    + apply Nat.eqb_eq in H6.
      destruct (hex_channels h [0; 2; 4]%nat) as [t|] eqn:Ht; [|discriminate Hc].
      injection Hc as <-.
      assert (Forall (fun v => -15 <= v <= 255) t) as Hr.
      { eapply hex_channels_range; [|exact Ht].
        do 6 (destruct h as [|? h]; [discriminate H6|]).
        destruct h; [|discriminate H6]. repeat constructor. }
      split; [|split; [|split]].
      * rewrite length_app. apply rmap_length in Ht. simpl in *. lia.
      * intros Hv. apply valid_hex_form_inv in Hv as (h' & [= <-] & _ & Hhex).
        destruct (hex_channels_6 h H6 Hhex) as [Ht' Hch].
        rewrite Ht in Ht'. injection Ht' as ->.
        apply Forall_app. split; [exact Hch|]. repeat constructor; unfold channel; lia.
      * intros _. apply Forall_app. split; [exact Hr|]. repeat constructor; lia.
      * discriminate.
    + apply Nat.eqb_eq in H8.
      assert (Forall (fun v => -15 <= v <= 255) c) as Hr.
      { eapply hex_channels_range; [|exact Hc].
        do 8 (destruct h as [|? h]; [discriminate H8|]).
        destruct h; [|discriminate H8]. repeat constructor. }
      split; [|split; [|split]].
      * apply rmap_length in Hc. exact Hc.
      * intros Hv. apply valid_hex_form_inv in Hv as (h' & [= <-] & _ & Hhex).
        destruct (hex_channels_8 h H8 Hhex) as [Ht' Hch].
        rewrite Hc in Ht'. now injection Ht' as ->.
      * intros _. exact Hr.
      * discriminate.
  - rewrite (parse_color_no_hash s Hs) in Hc.
    destruct ((Py.count "," s =? 2)%nat || (Py.count "," s =? 3)%nat); [|discriminate Hc].
    destruct (rmap _ (Py.split "," s)) as [values|] eqn:Hv; [|discriminate Hc].
    simpl in Hc.
    assert (Forall (fun x => exists v, Py.int (Py.strip x) 10 = Some v /\ channel v)
              (Py.split "," s) -> Forall channel values) as Hch.
    { intros Hall. apply rmap_Return in Hv. clear Hc.
      induction Hv as [|x v xs vs Hx _ IH]; constructor.
      - inversion Hall as [|? ? (v' & Hx' & Hv') _]; subst.
        unfold Py.int_or_raise in Hx. rewrite Hx' in Hx. now injection Hx as <-.
      - apply IH. now inversion Hall. }
    destruct (List.length values =? 3)%nat eqn:H3;
      [|destruct (List.length values =? 4)%nat eqn:H4; [|discriminate Hc]];
      injection Hc as <-.
    + apply Nat.eqb_eq in H3.
      split; [|split; [|split]].
      * rewrite length_app. simpl. lia.
      * intros Hv'. apply valid_hex_form_inv in Hv' as (h & -> & _). discriminate Hs.
      * discriminate.
      * intros _ Hall. apply Forall_app. split; [auto|].
        repeat constructor; unfold channel; lia.
    + apply Nat.eqb_eq in H4.
      split; [|split; [|split]].
      * exact H4.
      * intros Hv'. apply valid_hex_form_inv in Hv' as (h & -> & _). discriminate Hs.
      * discriminate.
      * intros _ Hall. auto.
Qed.

Lemma parse_color_channels_witness :
  (parse_color "#+1-f 3" = Return [1; -15; 3; 255]
   /\ List.length [1; -15; 3; 255] = 4%nat
   /\ Forall (fun v => -15 <= v <= 255) [1; -15; 3; 255])
  /\ (parse_color "#ff8000" = Return [255; 128; 0; 255]
      /\ Forall channel [255; 128; 0; 255])
  /\ (parse_color "0, 128,255,64" = Return [0; 128; 255; 64]
      /\ Forall channel [0; 128; 255; 64]).
Proof.
  assert (parse_color "#+1-f 3" = Return [1; -15; 3; 255]) as H1 by reflexivity.
  assert (parse_color "#ff8000" = Return [255; 128; 0; 255]) as H2 by reflexivity.
  assert (parse_color "0, 128,255,64" = Return [0; 128; 255; 64]) as H3 by reflexivity.
  destruct (parse_color_channels _ _ H1) as (Hlen & _ & Hr & _).
  destruct (parse_color_channels _ _ H2) as (_ & Hhex & _ & _).
  destruct (parse_color_channels _ _ H3) as (_ & _ & _ & Hdec).
  assert (Forall (fun x => exists v, Py.int (Py.strip x) 10 = Some v /\ channel v)
            (Py.split "," "0, 128,255,64")) as Hall.
  { change (Py.split "," "0, 128,255,64") with ["0"; " 128"; "255"; "64"].
    repeat (apply List.Forall_cons;
            [eexists; split; [vm_compute; reflexivity | unfold channel; lia]|]).
    apply List.Forall_nil. }
  exact (conj (conj H1 (conj Hlen (Hr eq_refl)))
           (conj (conj H2 (Hhex eq_refl)) (conj H3 (Hdec eq_refl Hall)))).
Defined.

(** C3 as the specification states it fails: the decimal form returns a
    component above 255 as it is written. *)
Lemma parse_color_channels_counterexample :
  ~ (forall c, parse_color "256,0,0" = Return c ->
               List.length c = 4%nat /\ Forall channel c).
Proof.
  intros H. destruct (H [256; 0; 0; 255] eq_refl) as [_ Hc].
  inversion Hc as [|? ? H256 _]. unfold channel in H256. lia.
Qed.

Lemma accepted_hex_hash (h : string) :
  accepted_hex (String "#" h) =
  ((String.length h =? 6)%nat && forallb (hex_pair_ok h) [0; 2; 4]%nat)
  || ((String.length h =? 8)%nat && forallb (hex_pair_ok h) [0; 2; 4; 6]%nat).
Proof. reflexivity. Qed.

(** [accepted_hex] and [accepted_comma] are exactly the texts that
    [parse_color] takes. *)
Lemma parse_color_accepts (s : string) :
  accepted_hex s || accepted_comma s = true -> exists c, parse_color s = Return c.
Proof.
  intros H. destruct (Py.startswith s "#") eqn:Hs.
  - destruct (startswith_hash s Hs) as [h ->].
    unfold accepted_comma in H. rewrite Hs, orb_false_r, accepted_hex_hash in H.
    rewrite parse_color_hash.
    destruct (String.length h =? 6)%nat eqn:H6.
    + assert ((String.length h =? 8)%nat = false) as H8.
      { apply Nat.eqb_eq in H6. apply Nat.eqb_neq. lia. }
      rewrite H8 in H. cbn [andb] in H. rewrite orb_false_r in H.
      destruct (rmap_int_Return (fun i => Py.slice i (i + 2) h) 16 _ H) as [t Ht].
      unfold hex_channels. rewrite Ht. now eexists.
    + cbn [andb orb] in H. apply andb_true_iff in H as [-> H].
      destruct (rmap_int_Return (fun i => Py.slice i (i + 2) h) 16 _ H) as [t Ht].
      unfold hex_channels. rewrite Ht. now eexists.
  - unfold accepted_hex, accepted_comma in H. rewrite Hs in H. cbn [andb orb negb] in H.
    apply andb_true_iff in H as [Hcount Hnum].
    rewrite (parse_color_no_hash s Hs), Hcount.
    destruct (rmap_int_Return Py.strip 10 _ Hnum) as [values Hv].
    rewrite Hv. simpl.
    rewrite (rmap_length _ _ _ Hv), length_split.
    apply orb_true_iff in Hcount as [Hc|Hc]; apply Nat.eqb_eq in Hc; rewrite Hc;
      simpl; now eexists.
Qed.

(** Outside the texts it takes, [parse_color] raises.  A text of the wrong
    shape (no [#] with six or eight characters after it, no two or three
    commas) gets the format error, with the text (without its [#]) in the
    message; a text of the right shape with a pair or component that [int]
    does not read gets [int]'s [ValueError]. *)
Lemma parse_color_rejects (s : string) :
  accepted_hex s = false -> accepted_comma s = false ->
  is_raise (parse_color s)
  /\ (color_shape s = false ->
      parse_color s =
      Raise (ArgumentTypeError (if Py.startswith s "#" then Py.slice_from 1 s else s)))
  /\ (color_shape s = true -> parse_color s = Raise ValueError).
Proof.
  intros Hhex Hcomma. unfold color_shape. destruct (Py.startswith s "#") eqn:Hs.
  - destruct (startswith_hash s Hs) as [h ->].
    rewrite accepted_hex_hash in Hhex. rewrite parse_color_hash.
    change (Py.slice_from 1 (String "#" h)) with h.
    destruct (String.length h =? 6)%nat eqn:H6.
    + cbn [andb] in Hhex. apply orb_false_iff in Hhex as [Hhex _].
      unfold hex_channels.
      rewrite (rmap_int_Raise (fun i => Py.slice i (i + 2) h) 16 _ Hhex).
      simpl. split; [exact I|]. split; [discriminate|reflexivity].
    + destruct (String.length h =? 8)%nat eqn:H8.
      * cbn [andb orb] in Hhex. unfold hex_channels.
        rewrite (rmap_int_Raise (fun i => Py.slice i (i + 2) h) 16 _ Hhex).
        simpl. split; [exact I|]. split; [discriminate|reflexivity].
      * simpl. split; [exact I|]. split; [reflexivity|discriminate].
  - unfold accepted_comma in Hcomma. rewrite Hs in Hcomma. cbn [andb negb] in Hcomma.
    rewrite (parse_color_no_hash s Hs).
    destruct ((Py.count "," s =? 2)%nat || (Py.count "," s =? 3)%nat) eqn:Hcount.
    + cbn [andb] in Hcomma. rewrite (rmap_int_Raise Py.strip 10 _ Hcomma).
      simpl. split; [exact I|]. split; [discriminate|reflexivity].
    + simpl. split; [exact I|]. split; [reflexivity|discriminate].
Qed.

Example parse_color_rejects_examples :
  parse_color "bogus" = Raise (ArgumentTypeError "bogus")
  /\ parse_color "#12" = Raise (ArgumentTypeError "12")
  /\ parse_color "1,2" = Raise (ArgumentTypeError "1,2")
  /\ parse_color "1,x,3" = Raise ValueError
  /\ parse_color "#GG0000" = Raise ValueError.
Proof.
  destruct (parse_color_rejects "bogus" eq_refl eq_refl) as (_ & H1 & _).
  destruct (parse_color_rejects "#12" eq_refl eq_refl) as (_ & H2 & _).
  destruct (parse_color_rejects "1,2" eq_refl eq_refl) as (_ & H3 & _).
  destruct (parse_color_rejects "1,x,3" eq_refl eq_refl) as (_ & _ & H4).
  destruct (parse_color_rejects "#GG0000" eq_refl eq_refl) as (_ & _ & H5).
  exact (conj (H1 eq_refl) (conj (H2 eq_refl) (conj (H3 eq_refl)
           (conj (H4 eq_refl) (H5 eq_refl))))).
Qed.

(** C5 on the code: the text [#+1+2+3] is neither [#RRGGBB], nor
    [#RRGGBBAA], nor a comma form, the only forms that the message of the
    format error and the help of [--color] name; [parse_color] takes it all
    the same and returns the color (1, 2, 3, 255), because it checks only
    the length after the [#] and [int(_, 16)] reads a sign and one digit
    where the form has two hex digits.  The same holds with a minus sign,
    which gives channels below 0, and with a blank before the digit. *)
Theorem parse_color_signed_pairs :
  valid_hex_form "#+1+2+3" = false
  /\ valid_comma_form "#+1+2+3" = false
  /\ parse_color "#+1+2+3" = Return [1; 2; 3; 255]
  /\ parse_color "#-1-2-3" = Return [-1; -2; -3; 255]
  /\ parse_color "# 1 2 3" = Return [1; 2; 3; 255].
Proof. vm_compute. auto. Qed.

(** ** The draw origin *)

Lemma positions_lookup (W H w h : Z) (p : string) :
  positions W H w h !! p =
  match assoc p anchors with
  | Some _ => Some (anchor_origin W H w h p)
  | None => None
  end.
Proof.
  unfold positions.
  repeat (rewrite list_to_map_cons, lookup_insert; cbn [fst snd];
          case_decide; [subst p; reflexivity|]).
  rewrite list_to_map_nil, lookup_empty.
  unfold anchors. cbn [assoc].
  repeat match goal with
    | _ : ?k <> p |- context [String.eqb p ?k] =>
        rewrite (proj2 (String.eqb_neq p k)) by congruence
    end.
  reflexivity.
Qed.

Lemma is_anchor_assoc (p : string) :
  is_anchor p = match assoc p anchors with Some _ => true | None => false end.
Proof.
  unfold is_anchor, anchors. cbn [List.map fst existsb assoc].
  repeat (destruct (String.eqb p _); [reflexivity|]; cbn [orb]).
  reflexivity.
Qed.

Lemma draw_origin_rule (W H w h : Z) (p : string) :
  draw_origin W H w h p =
    Some (if is_anchor p then anchor_origin W H w h p else (W - w - 10, H - h - 10)).
Proof.
  assert (positions W H w h !! "bottom-right" = Some (W - w - 10, H - h - 10)) as Hbr
    by (rewrite positions_lookup; reflexivity).
  unfold draw_origin. rewrite Hbr, positions_lookup, is_anchor_assoc.
  destruct (assoc p anchors); reflexivity.
Qed.

(** C8: the origin of the text follows the anchor: 10 pixels from the
    edge the anchor names, centered along an axis for [center] and the
    [-center] and [middle-] anchors, and the bottom-right origin for a
    position that is none of the nine anchors. *)
Theorem draw_origin_anchor (W H w h : Z) (p : string) :
  draw_origin W H w h p =
    Some (if is_anchor p then anchor_origin W H w h p else (W - w - 10, H - h - 10))
  /\ draw_origin W H w h "top-left" = Some (10, 10)
  /\ draw_origin W H w h "top-center" = Some ((W - w) / 2, 10)
  /\ draw_origin W H w h "top-right" = Some (W - w - 10, 10)
  /\ draw_origin W H w h "middle-left" = Some (10, (H - h) / 2)
  /\ draw_origin W H w h "center" = Some ((W - w) / 2, (H - h) / 2)
  /\ draw_origin W H w h "middle-right" = Some (W - w - 10, (H - h) / 2)
  /\ draw_origin W H w h "bottom-left" = Some (10, H - h - 10)
  /\ draw_origin W H w h "bottom-center" = Some ((W - w) / 2, H - h - 10)
  /\ draw_origin W H w h "bottom-right" = Some (W - w - 10, H - h - 10).
Proof.
  split; [apply draw_origin_rule|].
  repeat (split; [rewrite draw_origin_rule; reflexivity|]).
  rewrite draw_origin_rule; reflexivity.
Qed.

Example draw_origin_ex1 : draw_origin 200 100 41 11 "center" = Some (79, 44).
Proof. vm_compute. reflexivity. Qed.
Example draw_origin_ex2 : draw_origin 200 100 41 11 "nowhere" = Some (149, 79).
Proof. vm_compute. reflexivity. Qed.
Example draw_origin_ex3 : draw_origin 30 100 41 11 "top-center" = Some (-6, 10).
Proof. vm_compute. reflexivity. Qed.

(** ** The compositor *)

Example add_watermark_ex1 :
  add_watermark_to_image sample_world "photos/a.jpg" "2024-03-15" 36 white_half
    "bottom-right" initial
  = (Return (Some (Image RGB (200, 100)
       (Converted RGB
          (AlphaComposite (Converted RGBA (Decoded "photos/a.jpg"))
             (DrawText (149, 79) "2024-03-15" (TrueType "DejaVuSans.ttf" 36) white_half
                (Solid [255; 255; 255; 0])))))),
     initial).
Proof. vm_compute. reflexivity. Qed.

Example add_watermark_ex2 :
  add_watermark_to_image sample_world "photos/f.png" "2024-03-15" 36 white_half
    "center" initial
  = (Return (Some (Image RGBA (300, 200)
       (AlphaComposite (Decoded "photos/f.png")
          (DrawText (129, 94) "2024-03-15" (TrueType "DejaVuSans.ttf" 36) white_half
             (Solid [255; 255; 255; 0]))))),
     initial).
Proof. vm_compute. reflexivity. Qed.

Example add_watermark_ex3 :
  add_watermark_to_image sample_world "photos/missing.jpg" "2024-03-15" 36 white_half
    "center" initial
  = (Return None, State [WatermarkError "photos/missing.jpg" OSError] [] []).
Proof. vm_compute. reflexivity. Qed.

Lemma add_watermark_body_run (w : world) (image_path text : string) (font_size : Z)
    (font_color : list Z) (position : string) (f : image_file) (b0 b1 b2 b3 : Z) :
  image_open w image_path = Return f ->
  file_load f = None ->
  textbbox w (load_font w font_size) text = Return (b0, b1, b2, b3) ->
  exists base,
    open_rgba w image_path = Return (Image RGBA (file_size f) base) /\
    let xy := text_origin (file_size f) (b0, b1, b2, b3) position in
    let composite :=
      Image RGBA (file_size f)
        (AlphaComposite base
           (DrawText xy text (load_font w font_size) font_color
              (Solid [255; 255; 255; 0]))) in
    add_watermark_body w image_path text font_size font_color position =
    match draw_text_error w xy text (load_font w font_size) font_color with
    | Some e => Raise e
    | None => Return (if is_jpeg_path image_path then convert_rgb composite else composite)
    end.
Proof.
  intros Hopen Hload Hbbox.
  eexists. split.
  - unfold open_rgba. rewrite Hopen. simpl. rewrite Hload. reflexivity.
  - unfold add_watermark_body, open_rgba. rewrite Hopen. simpl rbind. rewrite Hload.
    cbn [rbind im_size]. unfold text_origin. destruct (file_size f) as [W H] eqn:Hsize.
    rewrite Hbbox. cbn [rbind].
    rewrite (draw_origin_rule W H (b2 - b0) (b3 - b1) position).
    destruct (is_anchor position); [destruct (anchor_origin _ _ _ _ _)|];
      cbv zeta; destruct (draw_text_error w _ text _ font_color); reflexivity.
Qed.

Lemma add_watermark_body_ok (w : world) (image_path text : string) (font_size : Z)
    (font_color : list Z) (position : string) (f : image_file) (b0 b1 b2 b3 : Z) :
  image_open w image_path = Return f ->
  file_load f = None ->
  textbbox w (load_font w font_size) text = Return (b0, b1, b2, b3) ->
  draw_text_error w (text_origin (file_size f) (b0, b1, b2, b3) position) text
    (load_font w font_size) font_color = None ->
  exists base,
    open_rgba w image_path = Return (Image RGBA (file_size f) base) /\
    let composite :=
      Image RGBA (file_size f)
        (AlphaComposite base
           (DrawText (text_origin (file_size f) (b0, b1, b2, b3) position)
              text (load_font w font_size) font_color (Solid [255; 255; 255; 0]))) in
    add_watermark_body w image_path text font_size font_color position =
    Return (if is_jpeg_path image_path then convert_rgb composite else composite).
Proof.
  intros Hopen Hload Hbbox Hdraw.
  destruct (add_watermark_body_run w image_path text font_size font_color position
              f b0 b1 b2 b3 Hopen Hload Hbbox) as (base & Hbase & Hbody).
  exists base. split; [exact Hbase|]. cbv zeta in *. now rewrite Hdraw in Hbody.
Qed.





Example add_watermark_ex4 :
  add_watermark_to_image sample_world "photos/a.jpg" "2024-03-15" 36
    [2 ^ 63; 0; 0; 255] "bottom-right" initial
  = (Return None, State [WatermarkError "photos/a.jpg" OverflowError] [] []).
Proof. vm_compute. reflexivity. Qed.

(** ** [strptime] on a capture time *)

Lemma range_check (p : Z -> bool) (n : Z) :
  forallb p (List.map Z.of_nat (List.seq 0 (Z.to_nat n))) = true ->
  forall z, 0 <= z < n -> p z = true.
Proof.
  intros H z Hz. rewrite forallb_forall in H. apply H.
  rewrite <- (Z2Nat.id z) by lia. apply in_map, in_seq. lia.
Qed.

Lemma int_pad2 (n : Z) : 0 <= n < 100 -> Py.int (Strptime.pad2 n) 10 = Some n.
Proof.
  intros Hn.
  assert (pad2_check n = true) as H.
  { apply (range_check pad2_check 100); [vm_compute; reflexivity | lia]. }
  unfold pad2_check in H. destruct (Py.int _ 10) as [v|]; [|discriminate].
  apply Z.eqb_eq in H. now subst.
Qed.

Lemma int_pad4 (n : Z) : 0 <= n < 10000 -> Py.int (Strptime.pad4 n) 10 = Some n.
Proof.
  intros Hn.
  assert (pad4_check n = true) as H.
  { apply (range_check pad4_check 10000); [vm_compute; reflexivity | lia]. }
  unfold pad4_check in H. destruct (Py.int _ 10) as [v|]; [|discriminate].
  apply Z.eqb_eq in H. now subst.
Qed.

Lemma digit_char_decimal (n : Z) : Py.isdecimal (Strptime.digit_char n) = true.
Proof.
  unfold Strptime.digit_char.
  assert (0 <= n mod 10 < 10) as H by (apply Z.mod_pos_bound; lia).
  assert (exists k : nat, (k < 10)%nat /\ n mod 10 = Z.of_nat k) as (k & Hk & ->).
  { exists (Z.to_nat (n mod 10)). lia. }
  do 10 (destruct k as [|k]; [reflexivity|]). lia.
Qed.

Lemma then_head {A} (m : Strptime.matcher) (s : string)
    (k : string -> string -> list A) (a r : string) (x : A) :
  (exists tl, m s = (a, r) :: tl) ->
  (exists xs, k a r = x :: xs) ->
  exists ys, Strptime.then_ m s k = x :: ys.
Proof.
  intros [tl Hm] [xs Hk]. unfold Strptime.then_. rewrite Hm. simpl. rewrite Hk.
  simpl. eauto.
Qed.

Lemma chr_head (c : ascii) (rest : string) :
  exists tl, Strptime.chr c (String c EmptyString +:+ rest) = (String c EmptyString, rest) :: tl.
Proof.
  exists []. change (String c "" +:+ rest) with (String c rest).
  unfold Strptime.chr, Strptime.cls. now rewrite Ascii.eqb_refl.
Qed.

Lemma append_cons (a : ascii) (s r : string) : String a s +:+ r = String a (s +:+ r).
Proof. reflexivity. Qed.

Lemma append_nil (r : string) : "" +:+ r = r.
Proof. reflexivity. Qed.

Lemma digit_step (n : Z) (rest : string) :
  Strptime.digit (String (Strptime.digit_char n) rest)
  = [(String (Strptime.digit_char n) EmptyString, rest)].
Proof.
  unfold Strptime.digit, Strptime.cls. now rewrite digit_char_decimal.
Qed.

Lemma re_Y_head (n : Z) (rest : string) :
  exists tl, Strptime.re_Y (Strptime.pad4 n +:+ rest) = (Strptime.pad4 n, rest) :: tl.
Proof.
  exists []. unfold Strptime.pad4, Strptime.pad2.
  rewrite !append_cons, append_nil. unfold Strptime.re_Y.
  do 3 (unfold Strptime.seq at 1; cbv beta; rewrite digit_step;
        cbn [flat_map List.map app]).
  rewrite digit_step. reflexivity.
Qed.

Lemma re_m_head (n : Z) (rest : string) :
  1 <= n <= 12 ->
  exists tl, Strptime.re_m (Strptime.pad2 n +:+ rest) = (Strptime.pad2 n, rest) :: tl.
Proof. intros Hn. enumerate n 13%nat 13. Qed.

Lemma re_d_head (n : Z) (rest : string) :
  1 <= n <= 31 ->
  exists tl, Strptime.re_d (Strptime.pad2 n +:+ rest) = (Strptime.pad2 n, rest) :: tl.
Proof. intros Hn. enumerate n 32%nat 32. Qed.

Lemma re_H_head (n : Z) (rest : string) :
  0 <= n <= 23 ->
  exists tl, Strptime.re_H (Strptime.pad2 n +:+ rest) = (Strptime.pad2 n, rest) :: tl.
Proof. intros Hn. enumerate n 24%nat 24. Qed.

Lemma re_M_head (n : Z) (rest : string) :
  0 <= n <= 59 ->
  exists tl, Strptime.re_M (Strptime.pad2 n +:+ rest) = (Strptime.pad2 n, rest) :: tl.
Proof. intros Hn. enumerate n 60%nat 60. Qed.

Lemma re_S_head (n : Z) (rest : string) :
  0 <= n <= 59 ->
  exists tl, Strptime.re_S (Strptime.pad2 n +:+ rest) = (Strptime.pad2 n, rest) :: tl.
Proof. intros Hn. enumerate n 60%nat 60. Qed.

Lemma spaces_head (n : Z) (rest : string) :
  exists tl, Strptime.spaces (" " +:+ Strptime.pad2 n +:+ rest) = (" ", Strptime.pad2 n +:+ rest) :: tl.
Proof.
  exists []. unfold Strptime.pad2. rewrite !append_cons, !append_nil.
  cbn [Strptime.spaces].
  assert (Py.isspace (Strptime.digit_char (n / 10)) = false) as ->.
  { unfold Strptime.digit_char.
    assert (0 <= (n / 10) mod 10 < 10) as H by (apply Z.mod_pos_bound; lia).
    assert (exists k : nat, (k < 10)%nat /\ (n / 10) mod 10 = Z.of_nat k) as (k & Hk & ->).
    { exists (Z.to_nat ((n / 10) mod 10)). lia. }
    do 10 (destruct k as [|k]; [reflexivity|]). lia. }
  reflexivity.
Qed.

Lemma valid_bounds (dt : Strptime.datetime) :
  Strptime.valid dt = true ->
  1 <= Strptime.year dt <= 9999 /\ 1 <= Strptime.month dt <= 12
  /\ 1 <= Strptime.day dt <= 31
  /\ 0 <= Strptime.hour dt <= 23 /\ 0 <= Strptime.minute dt <= 59
  /\ 0 <= Strptime.second dt <= 59.
Proof.
  unfold Strptime.valid, Py.between. intros H.
  repeat (apply andb_true_iff in H as [H ?]).
  assert (Strptime.days_in_month (Strptime.year dt) (Strptime.month dt) <= 31).
  { unfold Strptime.days_in_month.
    repeat match goal with |- context [if ?b then _ else _] => destruct b end; lia. }
  lia.
Qed.

Lemma format_regex_timestamp (dt : Strptime.datetime) :
  Strptime.valid dt = true ->
  exists tl,
    Strptime.format_regex (exif_timestamp dt)
    = (Strptime.Groups
         (Strptime.pad4 (Strptime.year dt)) (Strptime.pad2 (Strptime.month dt))
         (Strptime.pad2 (Strptime.day dt)) (Strptime.pad2 (Strptime.hour dt))
         (Strptime.pad2 (Strptime.minute dt)) (Strptime.pad2 (Strptime.second dt)),
       EmptyString) :: tl.
Proof.
  intros Hvalid. apply valid_bounds in Hvalid as (HY & Hm & Hd & HH & HM & HS).
  unfold Strptime.format_regex, exif_timestamp.
  eapply then_head; [apply re_Y_head|].
  eapply then_head; [apply chr_head|].
  eapply then_head; [apply re_m_head, Hm|].
  eapply then_head; [apply chr_head|].
  eapply then_head; [apply re_d_head, Hd|].
  eapply then_head; [apply spaces_head|].
  eapply then_head; [apply re_H_head, HH|].
  eapply then_head; [apply chr_head|].
  eapply then_head; [apply re_M_head, HM|].
  eapply then_head; [apply chr_head|].
  eapply then_head; [exact (re_S_head (Strptime.second dt) EmptyString HS)|].
  eexists. reflexivity.
Qed.

(** [strptime] reads the Exif text of a date and time that exist. *)
Lemma strptime_timestamp (dt : Strptime.datetime) :
  Strptime.valid dt = true -> Strptime.strptime (exif_timestamp dt) = Return dt.
Proof.
  intros Hvalid.
  destruct (format_regex_timestamp dt Hvalid) as [tl Hre].
  pose proof (valid_bounds dt Hvalid) as (HY & Hm & Hd & HH & HM & HS).
  unfold Strptime.strptime. rewrite Hre.
  unfold Strptime.convert. cbn [Strptime.g_Y Strptime.g_m Strptime.g_d Strptime.g_H
                                 Strptime.g_M Strptime.g_S].
  rewrite int_pad4 by lia. rewrite !int_pad2 by lia.
  cbn [mbind option_bind]. destruct dt as [Y m d H M S].
  cbn [Strptime.year Strptime.month Strptime.day Strptime.hour Strptime.minute
       Strptime.second] in *.
  now rewrite Hvalid.
Qed.

Lemma year_text_four_digits (padded : bool) (y : Z) :
  padded = true \/ 1000 <= y -> 0 <= y <= 9999 ->
  Strptime.year_text padded y = Strptime.pad4 y.
Proof.
  intros Hp Hy. unfold Strptime.year_text.
  destruct padded; [reflexivity|]. destruct Hp as [Hp|Hp]; [discriminate|].
  assert (year_text_check y = true) as H.
  { apply (range_check year_text_check 10000); [vm_compute; reflexivity | lia]. }
  unfold year_text_check in H.
  rewrite (proj2 (Z.leb_le 1000 y) Hp) in H. cbn [implb] in H.
  now apply String.eqb_eq in H.
Qed.

(** From year 1000 on, and for every year where the C library pads,
    [strftime] writes the date on ten characters. *)
Lemma strftime_date_text (padded : bool) (dt : Strptime.datetime) :
  padded = true \/ 1000 <= Strptime.year dt ->
  Strptime.valid dt = true ->
  Strptime.strftime padded dt = date_text dt.
Proof.
  intros Hp Hvalid. apply valid_bounds in Hvalid as (HY & _).
  unfold Strptime.strftime, date_text.
  rewrite (year_text_four_digits padded (Strptime.year dt) Hp) by lia. reflexivity.
Qed.

(** ** [get_exif_datetime] *)

Lemma is_date_tag_id (tag_id : Z) : is_date_tag (TAGS_get tag_id) = is_date_id tag_id.
Proof.
  unfold TAGS_get, TAGS.
  repeat (rewrite list_to_map_cons, lookup_insert; cbn [fst snd];
          case_decide; [subst tag_id; reflexivity|]).
  rewrite list_to_map_nil, lookup_empty.
  unfold is_date_id, date_tag_ids. cbn [is_date_tag existsb].
  repeat match goal with
    | H : ?k <> tag_id |- context [tag_id =? ?k] =>
        rewrite (proj2 (Z.eqb_neq tag_id k)) by congruence
    end.
  reflexivity.
Qed.

Lemma exif_loop_none (w : world) (items : list (Z * exif_value)) :
  no_date_tag items -> exif_loop w items = Return None.
Proof.
  induction 1 as [|[tag_id value] items Hx _ IH]; [reflexivity|].
  cbn [exif_loop]. rewrite is_date_tag_id. simpl in Hx. now rewrite Hx.
Qed.

Lemma exif_loop_first (w : world) (before after : list (Z * exif_value)) (tag_id : Z)
    (value : exif_value) :
  no_date_tag before -> is_date_id tag_id = true ->
  exif_loop w (before ++ (tag_id, value) :: after)
  = rbind (strptime_value value)
      (fun dt => Return (Some (Strptime.strftime (year_padded w) dt))).
Proof.
  intros Hbefore Hid.
  induction Hbefore as [|[tag_id' value'] items Hx _ IH].
  - cbn [app exif_loop]. now rewrite is_date_tag_id, Hid.
  - cbn [app exif_loop]. rewrite is_date_tag_id. simpl in Hx. now rewrite Hx.
Qed.

Lemma get_exif_datetime_run (w : world) (image_path : string) (st : state) :
  get_exif_datetime w image_path st =
  match get_exif_datetime_body w image_path with
  | Return date => (Return date, st)
  | Raise e => (Return None, printed st (ExifError image_path e))
  end.
Proof.
  unfold get_exif_datetime, try_except, lift, bind, print, ret.
  destruct (get_exif_datetime_body w image_path); reflexivity.
Qed.

Lemma no_capture_time_body (w : world) (image_path : string) :
  no_capture_time w image_path ->
  get_exif_datetime_body w image_path = Return None
  \/ exists e, get_exif_datetime_body w image_path = Raise e.
Proof.
  unfold get_exif_datetime_body.
  intros [e Ho | f e Ho He | f Ho He | f items Ho He Hi
         | f before after tag_id value e Ho He Hb Hid Hv];
    rewrite Ho; cbn [rbind]; try rewrite He; cbn [rbind]; eauto.
  - left. now apply exif_loop_none.
  - right. rewrite (exif_loop_first w _ _ _ _ Hb Hid), Hv. simpl. eauto.
Qed.

Lemma get_exif_datetime_first (w : world) (image_path : string) (st : state)
    (f : image_file) (before after : list (Z * exif_value)) (tag_id : Z)
    (value : exif_value) :
  image_open w image_path = Return f ->
  file_getexif f = Return (Some (before ++ (tag_id, value) :: after)) ->
  no_date_tag before ->
  is_date_id tag_id = true ->
  get_exif_datetime w image_path st =
  match strptime_value value with
  | Return dt => (Return (Some (Strptime.strftime (year_padded w) dt)), st)
  | Raise e => (Return None, printed st (ExifError image_path e))
  end.
Proof.
  intros Ho He Hb Hid. rewrite get_exif_datetime_run.
  unfold get_exif_datetime_body. rewrite Ho. cbn [rbind]. rewrite He. cbn [rbind].
  rewrite (exif_loop_first w _ _ _ _ Hb Hid).
  destruct (strptime_value value); reflexivity.
Qed.

(** C10: the loop stops at the first entry, in the order of the
    dictionary, whose tag is one of the three date tags, whichever of the
    three it is.  The value of that entry alone decides the result: its date
    when [strptime] reads it, nothing (and a line on the console) when it
    does not, whatever entries follow. *)
Theorem first_date_tag_decides (w : world) (image_path : string) (st : state)
    (f : image_file) (before after : list (Z * exif_value)) (tag_id : Z)
    (value : exif_value) :
  image_open w image_path = Return f ->
  file_getexif f = Return (Some (before ++ (tag_id, value) :: after)) ->
  no_date_tag before ->
  is_date_id tag_id = true ->
  get_exif_datetime w image_path st =
  match strptime_value value with
  | Return dt => (Return (Some (Strptime.strftime (year_padded w) dt)), st)
  | Raise e => (Return None, printed st (ExifError image_path e))
  end.
Proof.
  intros Ho He Hb Hid.
  exact (get_exif_datetime_first w image_path st f before after tag_id value Ho He Hb Hid).
Qed.

Lemma first_date_tag_decides_witness :
  get_exif_datetime sample_world "photos/d.jpeg" initial
  = (Return None, printed initial (ExifError "photos/d.jpeg" ValueError))
  /\ get_exif_datetime sample_world "photos/a.jpg" initial
     = (Return (Some "2024-03-16"), initial).
Proof.
  split.
  - apply (first_date_tag_decides sample_world "photos/d.jpeg" initial
             (ImageFile RGB (640, 480) (Return (Some unset_clock_exif)) None)
             [(0x010F, ExifStr "Canon")] [(0x9003, ExifStr "2024:03:15 10:20:30")]
             0x0132 (ExifStr "0000:00:00 00:00:00"));
      [reflexivity | reflexivity | repeat constructor | reflexivity].
  - apply (first_date_tag_decides sample_world "photos/a.jpg" initial
             (ImageFile RGB (200, 100) (Return (Some sample_exif)) None)
             [(0x010F, ExifStr "Canon"); (0x0112, ExifOther)]
             [(0x9003, ExifStr "2024:03:15 10:20:30")]
             0x0132 (ExifStr "2024:03:16 08:00:00"));
      [reflexivity | reflexivity | repeat constructor | reflexivity].
Defined.

(** C6, as the code has it: when the first date tag of the metadata, in
    the order of the dictionary, holds the text ["YYYY:MM:DD HH:MM:SS"] of a
    date and time that exist, [get_exif_datetime] returns the date as
    [strftime] writes it and prints nothing; that is the text ["YYYY-MM-DD"]
    for every year from 1000 on, and for every year where the C library pads
    the year to four digits. *)
Theorem capture_date_of_first_tag (w : world) (image_path : string) (st : state)
    (f : image_file) (before after : list (Z * exif_value)) (tag_id : Z)
    (dt : Strptime.datetime) :
  image_open w image_path = Return f ->
  file_getexif f = Return (Some (before ++ (tag_id, ExifStr (exif_timestamp dt)) :: after)) ->
  no_date_tag before ->
  is_date_id tag_id = true ->
  Strptime.valid dt = true ->
  get_exif_datetime w image_path st
  = (Return (Some (Strptime.strftime (year_padded w) dt)), st)
  /\ (year_padded w = true \/ 1000 <= Strptime.year dt ->
      get_exif_datetime w image_path st = (Return (Some (date_text dt)), st)).
Proof.
  intros Ho He Hb Hid Hvalid.
  rewrite (get_exif_datetime_first w image_path st f before after tag_id _ Ho He Hb Hid).
  cbn [strptime_value]. rewrite (strptime_timestamp dt Hvalid).
  split; [reflexivity|].
  intros Hp. now rewrite (strftime_date_text _ dt Hp Hvalid).
Qed.

Lemma capture_date_of_first_tag_witness :
  exif_timestamp (Strptime.Datetime 2024 3 15 10 20 30) = "2024:03:15 10:20:30"
  /\ get_exif_datetime sample_world "photos/f.png" initial
     = (Return (Some "2024-03-16"), initial)
  /\ get_exif_datetime (single_tag_world "2024:03:15 10:20:30") "x.jpg" initial
     = (Return (Some "2024-03-15"), initial)
  /\ get_exif_datetime (single_tag_world "0999:01:01 00:00:00") "x.jpg" initial
     = (Return (Some "999-01-01"), initial).
Proof.
  assert (no_date_tag [(0x010F, ExifStr "Canon"); (0x0112, ExifOther)]) as Hno
    by (repeat constructor).
  assert (no_date_tag []) as Hnil by constructor.
  destruct (capture_date_of_first_tag sample_world "photos/f.png" initial
              (ImageFile RGBA (300, 200) (Return (Some sample_exif)) None)
              [(0x010F, ExifStr "Canon"); (0x0112, ExifOther)]
              [(0x9003, ExifStr "2024:03:15 10:20:30")]
              0x0132 (Strptime.Datetime 2024 3 16 8 0 0)
              eq_refl eq_refl Hno eq_refl eq_refl) as [_ H1].
  destruct (capture_date_of_first_tag (single_tag_world "2024:03:15 10:20:30") "x.jpg"
              initial
              (ImageFile RGB (200, 100)
                 (Return (Some [(0x9003, ExifStr "2024:03:15 10:20:30")])) None)
              [] [] 0x9003 (Strptime.Datetime 2024 3 15 10 20 30)
              eq_refl eq_refl Hnil eq_refl eq_refl) as [_ H2].
  destruct (capture_date_of_first_tag (single_tag_world "0999:01:01 00:00:00") "x.jpg"
              initial
              (ImageFile RGB (200, 100)
                 (Return (Some [(0x9003, ExifStr "0999:01:01 00:00:00")])) None)
              [] [] 0x9003 (Strptime.Datetime 999 1 1 0 0 0)
              eq_refl eq_refl Hnil eq_refl eq_refl) as [H3 _].
  split; [reflexivity|].
  split; [apply H1; right; simpl; lia|].
  split; [apply H2; right; simpl; lia | exact H3].
Defined.

(** C6 as the specification states it fails: the metadata of [d.jpeg]
    holds a capture time under [DateTimeOriginal], and the function returns
    nothing, because [DateTime] comes first and holds zeros. *)
Lemma capture_date_counterexample :
  ~ (forall tag_id dt,
        In (tag_id, ExifStr (exif_timestamp dt)) unset_clock_exif ->
        is_date_id tag_id = true ->
        Strptime.valid dt = true ->
        fst (get_exif_datetime sample_world "photos/d.jpeg" initial)
        = Return (Some (date_text dt))).
Proof.
  intros H.
  specialize (H 0x9003 (Strptime.Datetime 2024 3 15 10 20 30)).
  assert (In (0x9003, ExifStr (exif_timestamp (Strptime.Datetime 2024 3 15 10 20 30)))
            unset_clock_exif) as Hin by (right; right; left; reflexivity).
  specialize (H Hin eq_refl eq_refl). discriminate H.
Qed.

(** C7: [get_exif_datetime] returns; it never raises.  For a file without
    a readable capture time it returns nothing, writes no file, and the
    loop of the directory goes on with the next name, the count as it
    was. *)
Theorem get_exif_datetime_never_raises (w : world) (image_path : string) (st : state) :
  (exists date st', get_exif_datetime w image_path st = (Return date, st'))
  /\ (no_capture_time w image_path ->
      exists st',
        get_exif_datetime w image_path st = (Return None, st')
        /\ saved st' = saved st
        /\ forall directory_path filename watermark_dir font_size font_color position
                  rest processed_count,
            image_path = path_join directory_path filename ->
            is_supported filename = true ->
            exists st'',
              process_files w directory_path watermark_dir font_size font_color position
                (filename :: rest) processed_count st
              = process_files w directory_path watermark_dir font_size font_color position
                  rest processed_count st''
              /\ saved st'' = saved st).
Proof.
  split.
  - rewrite get_exif_datetime_run.
    destruct (get_exif_datetime_body w image_path); eauto.
  - intros Hno.
    assert (exists st', get_exif_datetime w image_path st = (Return None, st')
                        /\ saved st' = saved st) as (st' & Hrun & Hsaved).
    { rewrite get_exif_datetime_run.
      destruct (no_capture_time_body w image_path Hno) as [-> | [e ->]]; eauto. }
    exists st'. split; [exact Hrun|]. split; [exact Hsaved|].
    intros directory_path filename watermark_dir font_size font_color position rest
      processed_count -> Hsup.
    cbn [process_files]. rewrite Hsup. unfold bind at 1. rewrite Hrun.
    cbn [truthy]. unfold bind, print.
    eexists. split; [reflexivity|]. exact Hsaved.
Qed.

Lemma get_exif_datetime_never_raises_witness :
  (exists st', get_exif_datetime sample_world "photos/c.JPG" initial = (Return None, st')
               /\ saved st' = [])
  /\ (exists st', get_exif_datetime sample_world "photos/gone.jpg" initial = (Return None, st')
                  /\ saved st' = [])
  /\ (exists st', get_exif_datetime sample_world "photos/d.jpeg" initial = (Return None, st')
                  /\ saved st' = []).
Proof.
  assert (no_capture_time sample_world "photos/c.JPG") as H1.
  { eapply metadata_missing; reflexivity. }
  assert (no_capture_time sample_world "photos/gone.jpg") as H2.
  { eapply open_fails; reflexivity. }
  assert (no_capture_time sample_world "photos/d.jpeg") as H3.
  { eapply (unparseable _ _ _ [(0x010F, ExifStr "Canon")]
              [(0x9003, ExifStr "2024:03:15 10:20:30")] 0x0132
              (ExifStr "0000:00:00 00:00:00") ValueError);
      [reflexivity | reflexivity | repeat constructor | reflexivity | reflexivity]. }
  destruct (get_exif_datetime_never_raises sample_world "photos/c.JPG" initial)
    as [_ G1].
  destruct (get_exif_datetime_never_raises sample_world "photos/gone.jpg" initial)
    as [_ G2].
  destruct (get_exif_datetime_never_raises sample_world "photos/d.jpeg" initial)
    as [_ G3].
  destruct (G1 H1) as (s1 & E1 & S1 & _).
  destruct (G2 H2) as (s2 & E2 & S2 & _).
  destruct (G3 H3) as (s3 & E3 & S3 & _).
  exact (conj (ex_intro _ s1 (conj E1 S1))
           (conj (ex_intro _ s2 (conj E2 S2)) (ex_intro _ s3 (conj E3 S3)))).
Defined.

(** ** [process_images_in_directory] *)

Example process_sample :
  process_images_in_directory sample_world "photos" 36 white_half "bottom-right" initial
  = (Return None,
     State
       [ Processed "a.jpg" "photos/photos_watermark/a.jpg";
         NoCaptureTime "c.JPG";
         ExifError "photos/d.jpeg" ValueError; NoCaptureTime "d.jpeg";
         ExifError "photos/e.bmp" AttributeError; NoCaptureTime "e.bmp";
         Processed "f.png" "photos/photos_watermark/f.png";
         Summary 2 ]
       ["photos/photos_watermark"]
       [ ("photos/photos_watermark/a.jpg",
          Image RGB (200, 100)
            (Converted RGB
               (AlphaComposite (Converted RGBA (Decoded "photos/a.jpg"))
                  (DrawText (149, 79) "2024-03-16" (TrueType "DejaVuSans.ttf" 36) white_half
                     (Solid [255; 255; 255; 0])))));
         ("photos/photos_watermark/f.png",
          Image RGBA (300, 200)
            (AlphaComposite (Decoded "photos/f.png")
               (DrawText (249, 179) "2024-03-16" (TrueType "DejaVuSans.ttf" 36) white_half
                  (Solid [255; 255; 255; 0])))) ]).
Proof. vm_compute. reflexivity. Qed.

Lemma length_append (x y : string) :
  String.length (x +:+ y) = (String.length x + String.length y)%nat.
Proof. induction x as [|a x IH]; [reflexivity|]. rewrite append_cons. simpl. now rewrite IH. Qed.

Lemma slice_from_append (x y : string) (k : nat) :
  Py.slice_from (String.length x + k) (x +:+ y) = Py.slice_from k y.
Proof. induction x as [|a x IH]; [reflexivity|]. rewrite append_cons. simpl. exact IH. Qed.

Lemma lower_append (x y : string) : Py.lower (x +:+ y) = Py.lower x +:+ Py.lower y.
Proof.
  induction x as [|a x IH]; [reflexivity|].
  rewrite append_cons. cbn [Py.lower]. rewrite append_cons. now rewrite IH.
Qed.

Lemma length_lower (x : string) : String.length (Py.lower x) = String.length x.
Proof. induction x as [|a x IH]; [reflexivity|]. simpl. now rewrite IH. Qed.

Lemma endswith_append (x y suffix : string) :
  (String.length suffix <= String.length y)%nat ->
  Py.endswith (x +:+ y) suffix = Py.endswith y suffix.
Proof.
  intros Hle. unfold Py.endswith. rewrite length_append.
  replace (String.length x + String.length y - String.length suffix)%nat
    with (String.length x + (String.length y - String.length suffix))%nat by lia.
  rewrite slice_from_append.
  destruct (Nat.leb_spec (String.length suffix) (String.length y));
    destruct (Nat.leb_spec (String.length suffix) (String.length x + String.length y));
    try lia; reflexivity.
Qed.

(** The output directory is no image file. *)
Lemma watermark_dir_unsupported (b : string) : is_supported (b +:+ "_watermark") = false.
Proof.
  unfold is_supported, Py.endswith_any, supported_formats. cbn [existsb].
  rewrite lower_append.
  rewrite !endswith_append by (simpl; lia). reflexivity.
Qed.

Lemma supported_after_makedirs (w : world) (directory_path : string)
    (names : list string) :
  listdir w directory_path = Return names ->
  exists names',
    listdir_after_makedirs w directory_path = Return names'
    /\ List.filter is_supported names' = supported_files w directory_path.
Proof.
  intros Hls. unfold listdir_after_makedirs, supported_files, listing. rewrite Hls.
  cbn [rbind]. eexists. split; [reflexivity|].
  case_bool_decide; [reflexivity|].
  rewrite List.filter_app. cbn [List.filter].
  rewrite watermark_dir_unsupported. apply app_nil_r.
Qed.

Lemma makedirs_run (w : world) (path : string) (st : state) :
  makedirs w path st =
  match makedirs_error w path with
  | Some e => (Raise e, st)
  | None =>
      (Return tt,
       if bool_decide (path ∈ made_dirs st) then st
       else State (console st) (made_dirs st ++ [path]) (saved st))
  end.
Proof. reflexivity. Qed.

Lemma makedirs_keeps (w : world) (path : string) (st : state) (r : result unit)
    (st' : state) :
  makedirs w path st = (r, st') -> saved st' = saved st /\ console st' = console st.
Proof.
  rewrite makedirs_run. destruct (makedirs_error w path); intros [= _ <-]; auto.
  case_bool_decide; auto.
Qed.

Lemma add_watermark_run (w : world) (image_path text : string) (font_size : Z)
    (font_color : list Z) (position : string) (st : state) :
  add_watermark_to_image w image_path text font_size font_color position st =
  match add_watermark_body w image_path text font_size font_color position with
  | Return im => (Return (Some im), st)
  | Raise e => (Return None, printed st (WatermarkError image_path e))
  end.
Proof.
  unfold add_watermark_to_image, try_except, lift, bind, print, ret.
  destruct (add_watermark_body _ _ _ _ _ _); reflexivity.
Qed.

Lemma process_files_run (w : world) (directory_path : string) (font_size : Z)
    (font_color : list Z) (position : string) (filenames : list string) :
  forallb (composites_and_saves w directory_path font_size font_color position)
    (List.filter is_supported filenames) = true ->
  forall processed_count st,
  exists st',
    process_files w directory_path (watermark_dir_of directory_path) font_size font_color
      position filenames processed_count st
    = (Return (processed_count
               + Z.of_nat (List.length
                    (List.filter (fun f => negb (lacks_date w directory_path f))
                       (List.filter is_supported filenames)))), st')
    /\ List.map fst (saved st')
       = List.map fst (saved st)
         ++ List.map (path_join (watermark_dir_of directory_path))
              (List.filter (fun f => negb (lacks_date w directory_path f))
                 (List.filter is_supported filenames))
    /\ made_dirs st' = made_dirs st.
Proof.
  induction filenames as [|filename rest IH]; intros Hall processed_count st.
  - exists st. cbn. rewrite Z.add_0_r, app_nil_r. auto.
  - cbn [process_files List.filter] in *.
    destruct (is_supported filename) eqn:Hsup; cbv iota in Hall |- *;
      [|exact (IH Hall processed_count st)].
    cbn [forallb List.filter] in *. apply andb_true_iff in Hall as [Hfile Hall].
    unfold bind at 1. rewrite get_exif_datetime_run.
    unfold composites_and_saves, capture_date in Hfile.
    destruct (get_exif_datetime_body w (path_join directory_path filename))
      as [date|e] eqn:Hbody.
    + destruct (truthy date) as [text|] eqn:Htext.
      * assert (lacks_date w directory_path filename = false) as ->
          by (unfold lacks_date, capture_date; now rewrite Hbody, Htext).
        unfold bind at 1. rewrite add_watermark_run.
        destruct (add_watermark_body w _ text font_size font_color position)
          as [im|] eqn:Him; [|discriminate Hfile].
        destruct (save_error w _ im) eqn:Hsave; [discriminate Hfile|].
        unfold bind at 1. unfold save at 1. rewrite Hsave.
        unfold bind at 1. unfold print at 1. cbn [console made_dirs saved].
        destruct (IH Hall (processed_count + 1)
                    (State (console st
                            ++ [Processed filename
                                  (path_join (watermark_dir_of directory_path) filename)])
                       (made_dirs st)
                       (saved st ++ [(path_join (watermark_dir_of directory_path)
                                        filename, im)])))
          as (st' & Hrun & Hsaved & Hdirs).
        exists st'. cbn [negb List.length List.map]. split; [|split].
        -- rewrite Hrun. f_equal. f_equal. lia.
        -- rewrite Hsaved. cbn [saved]. rewrite List.map_app. cbn [List.map fst].
           now rewrite <- app_assoc.
        -- rewrite Hdirs. reflexivity.
      * assert (lacks_date w directory_path filename = true) as ->
          by (unfold lacks_date, capture_date; now rewrite Hbody, Htext).
        unfold bind at 1. unfold print at 1.
        destruct (IH Hall processed_count
                    (State (console st ++ [NoCaptureTime filename]) (made_dirs st)
                       (saved st)))
          as (st' & Hrun & Hsaved & Hdirs).
        exists st'. cbn [negb]. auto.
    + assert (lacks_date w directory_path filename = true) as ->
        by (unfold lacks_date, capture_date; now rewrite Hbody).
      cbn [truthy]. unfold bind at 1. unfold print at 1.
      destruct (IH Hall processed_count
                  (State (console (printed st (ExifError
                                     (path_join directory_path filename) e))
                          ++ [NoCaptureTime filename])
                     (made_dirs (printed st (ExifError
                                   (path_join directory_path filename) e)))
                     (saved (printed st (ExifError
                               (path_join directory_path filename) e)))))
        as (st' & Hrun & Hsaved & Hdirs).
      exists st'. cbn [negb]. auto.
Qed.

Lemma dated_count (w : world) (directory_path : string) :
  Z.of_nat (List.length (dated_files w directory_path))
  = Z.of_nat (List.length (supported_files w directory_path))
    - Z.of_nat (List.length (List.filter (lacks_date w directory_path)
                               (supported_files w directory_path))).
Proof.
  unfold dated_files.
  pose proof (List.filter_length (lacks_date w directory_path)
                (supported_files w directory_path)) as H.
  lia.
Qed.

(** C1, as the code has it: where the output directory can be made and
    the directory listed, in a directory with N supported files, M of them
    without a readable capture date, where every other file composites and
    saves, the run writes the N-M other files to the output directory, in
    the order of the listing, and the last line it prints gives the count
    N-M.  The function itself returns [None]: it has no [return]
    statement. *)
Theorem process_images_count (w : world) (directory_path : string) (font_size : Z)
    (font_color : list Z) (position : string) (st : state) (names : list string) :
  makedirs_error w (watermark_dir_of directory_path) = None ->
  listdir w directory_path = Return names ->
  forallb (composites_and_saves w directory_path font_size font_color position)
    (supported_files w directory_path) = true ->
  let N := Z.of_nat (List.length (supported_files w directory_path)) in
  let M := Z.of_nat (List.length (List.filter (lacks_date w directory_path)
                                    (supported_files w directory_path))) in
  exists st',
    process_images_in_directory w directory_path font_size font_color position st
    = (Return None, st')
    /\ last (console st') = Some (Summary (N - M))
    /\ List.map fst (saved st')
       = List.map fst (saved st)
         ++ List.map (path_join (watermark_dir_of directory_path))
              (dated_files w directory_path)
    /\ Z.of_nat (List.length (saved st')) = Z.of_nat (List.length (saved st)) + (N - M).
Proof.
  intros Hmkdir Hls Hall N M. subst N M. rewrite <- dated_count.
  unfold process_images_in_directory.
  fold (watermark_dir_of directory_path).
  destruct (supported_after_makedirs w directory_path names Hls)
    as (names' & Hls' & Hfilter).
  rewrite <- Hfilter in Hall.
  unfold bind at 1.
  destruct (makedirs w (watermark_dir_of directory_path) st) as [r st1] eqn:Hmk.
  destruct (makedirs_keeps _ _ _ _ _ Hmk) as [Hsaved1 _].
  rewrite makedirs_run, Hmkdir in Hmk. injection Hmk as <- _.
  unfold bind at 1. unfold lift at 1. rewrite Hls'.
  destruct (process_files_run w directory_path font_size font_color position
              names' Hall 0 st1)
    as (st2 & Hrun & Hsaved2 & _).
  rewrite Hfilter in Hrun, Hsaved2.
  fold (dated_files w directory_path) in Hrun, Hsaved2.
  unfold bind at 1. rewrite Hrun. unfold bind, print, ret.
  eexists. split; [reflexivity|]. cbn [console saved].
  split; [|split].
  - rewrite last_snoc. reflexivity.
  - rewrite Hsaved2, Hsaved1. reflexivity.
  - apply (f_equal (@List.length string)) in Hsaved2.
    rewrite length_app, !length_map, Hsaved1 in Hsaved2. rewrite Hsaved2. lia.
Qed.

Lemma process_images_count_witness :
  exists st',
    process_images_in_directory sample_world "photos" 36 white_half "bottom-right" initial
    = (Return None, st')
    /\ last (console st') = Some (Summary (5 - 3))
    /\ List.map fst (saved st')
       = ["photos/photos_watermark/a.jpg"; "photos/photos_watermark/f.png"]
    /\ Z.of_nat (List.length (saved st')) = 0 + (5 - 3).
Proof.
  exact (process_images_count sample_world "photos" 36 white_half "bottom-right" initial
           ["a.jpg"; "notes.txt"; "c.JPG"; "d.jpeg"; "e.bmp"; "f.png"]
           eq_refl eq_refl eq_refl).
Defined.

Example process_read_only :
  process_images_in_directory read_only_world "photos" 36 white_half "bottom-right" initial
  = (Raise OSError, initial).
Proof. vm_compute. reflexivity. Qed.

Example process_unlisted :
  process_images_in_directory sample_world "holiday" 36 white_half "bottom-right" initial
  = (Raise OSError, State [] ["holiday/holiday_watermark"] []).
Proof. vm_compute. reflexivity. Qed.

(** C1 as the specification states it fails: in the sample directory,
    with five supported files of which three have no capture date and the
    other two composite and save, the function does not return 2. *)
Lemma process_images_count_counterexample :
  ~ (forallb (composites_and_saves sample_world "photos" 36 white_half "bottom-right")
       (supported_files sample_world "photos") = true ->
     fst (process_images_in_directory sample_world "photos" 36 white_half "bottom-right"
            initial)
     = Return (Some (Z.of_nat (List.length (supported_files sample_world "photos"))
                     - Z.of_nat (List.length
                                   (List.filter (lacks_date sample_world "photos")
                                      (supported_files sample_world "photos")))))).
Proof.
  intros H. specialize (H eq_refl). discriminate H.
Qed.

(** C2 on the code: when the write of the first file fails, the exception
    leaves [process_images_in_directory].  Nothing is printed, not even the
    name of the file, and [f.png], which would have been written, is never
    reached. *)
Theorem save_failure_aborts_run :
  process_images_in_directory full_disk_world "photos" 36 white_half "bottom-right" initial
  = (Raise OSError, State [] ["photos/photos_watermark"] [])
  /\ is_supported "f.png" = true
  /\ composites_and_saves full_disk_world "photos" 36 white_half "bottom-right" "f.png"
     = true
  /\ lacks_date full_disk_world "photos" "f.png" = false.
Proof. vm_compute. auto. Qed.

(** * Further properties of the code *)

(** ** The compositor *)

Lemma add_watermark_body_inv (w : world) (image_path text : string) (font_size : Z)
    (font_color : list Z) (position : string) (im : image) :
  add_watermark_body w image_path text font_size font_color position = Return im ->
  exists f bbox,
    image_open w image_path = Return f /\ file_load f = None
    /\ textbbox w (load_font w font_size) text = Return bbox
    /\ draw_text_error w (text_origin (file_size f) bbox position) text
         (load_font w font_size) font_color = None.
Proof.
  intros Hbody.
  destruct (image_open w image_path) as [f|e] eqn:Hopen;
    [|unfold add_watermark_body, open_rgba in Hbody; rewrite Hopen in Hbody;
      discriminate Hbody].
  destruct (file_load f) as [e|] eqn:Hload;
    [unfold add_watermark_body, open_rgba in Hbody; rewrite Hopen in Hbody;
     cbn [rbind] in Hbody; rewrite Hload in Hbody; discriminate Hbody|].
  destruct (textbbox w (load_font w font_size) text) as [[[[b0 b1] b2] b3]|e] eqn:Hbbox.
  - destruct (add_watermark_body_run w image_path text font_size font_color position
                f b0 b1 b2 b3 Hopen Hload Hbbox) as (base & _ & Hrun).
    cbv zeta in Hrun. rewrite Hbody in Hrun.
    exists f, (b0, b1, b2, b3). repeat split; try assumption.
    destruct (draw_text_error w _ text _ font_color); [discriminate Hrun|reflexivity].
  - unfold add_watermark_body, open_rgba in Hbody. rewrite Hopen in Hbody.
    cbn [rbind] in Hbody. rewrite Hload in Hbody. cbn [rbind im_size] in Hbody.
    destruct (file_size f) as [W H]. rewrite Hbbox in Hbody. discriminate Hbody.
Qed.

(** X1: [add_watermark_to_image] never raises.  It returns an image
    exactly when the file opens, its pixels decode, the text can be
    measured with the font that loaded and [draw.text] draws it at the
    origin of the anchor; a missing font and an unknown position never make
    it fail.  When it returns nothing it has printed one line, with the
    path, and in both cases it has written no file. *)
Theorem add_watermark_returns (w : world) (image_path text : string) (font_size : Z)
    (font_color : list Z) (position : string) (st : state) :
  exists r st',
    add_watermark_to_image w image_path text font_size font_color position st
    = (Return r, st')
    /\ saved st' = saved st /\ made_dirs st' = made_dirs st
    /\ (is_Some r <->
        exists f bbox,
          image_open w image_path = Return f /\ file_load f = None
          /\ textbbox w (load_font w font_size) text = Return bbox
          /\ draw_text_error w (text_origin (file_size f) bbox position) text
               (load_font w font_size) font_color = None)
    /\ (is_Some r -> st' = st)
    /\ (r = None -> exists e, st' = printed st (WatermarkError image_path e)).
Proof.
  rewrite add_watermark_run.
  destruct (add_watermark_body w image_path text font_size font_color position)
    as [im|e] eqn:Hbody.
  - exists (Some im), st. repeat split; eauto.
    + intros _. eapply add_watermark_body_inv, Hbody.
    + discriminate.
  - exists None, (printed st (WatermarkError image_path e)). repeat split; eauto.
    + intros [? [=]].
    + intros (f & [[[b0 b1] b2] b3] & Ho & Hl & Hb & Hd).
      destruct (add_watermark_body_ok w image_path text font_size font_color position
                  f b0 b1 b2 b3 Ho Hl Hb Hd) as (base & _ & Hok).
      cbv zeta in Hok. rewrite Hbody in Hok. discriminate Hok.
    + intros [? [=]].
Qed.

(** X2: the image that [add_watermark_to_image] returns has the size of
    the file it opened, and its mode is [RGB] for a path that ends in [.jpg]
    or [.jpeg] and [RGBA], with the alpha channel of the composite, for every
    other path. *)
Theorem add_watermark_size_and_mode (w : world) (image_path text : string)
    (font_size : Z) (font_color : list Z) (position : string) (st st' : state)
    (im : image) :
  add_watermark_to_image w image_path text font_size font_color position st
  = (Return (Some im), st') ->
  exists f,
    image_open w image_path = Return f
    /\ im_size im = file_size f
    /\ im_mode im = (if is_jpeg_path image_path then RGB else RGBA).
Proof.
  rewrite add_watermark_run.
  destruct (add_watermark_body w image_path text font_size font_color position)
    as [im'|e] eqn:Hbody; [|discriminate].
  intros [= -> _].
  destruct (add_watermark_body_inv _ _ _ _ _ _ _ Hbody)
    as (f & [[[b0 b1] b2] b3] & Ho & Hl & Hb & Hd).
  destruct (add_watermark_body_ok w image_path text font_size font_color position
              f b0 b1 b2 b3 Ho Hl Hb Hd) as (base & _ & Hok).
  cbv zeta in Hok. rewrite Hbody in Hok. injection Hok as ->.
  exists f. split; [exact Ho|].
  destruct (is_jpeg_path image_path); split; reflexivity.
Qed.

Lemma add_watermark_size_and_mode_witness :
  exists f,
    image_open sample_world "photos/f.png" = Return f
    /\ (300, 200) = file_size f
    /\ RGBA = (if is_jpeg_path "photos/f.png" then RGB else RGBA).
Proof.
  exact (add_watermark_size_and_mode sample_world "photos/f.png" "2024-03-16" 36
           white_half "center" initial initial
           (Image RGBA (300, 200)
              (AlphaComposite (Decoded "photos/f.png")
                 (DrawText (129, 94) "2024-03-16" (TrueType "DejaVuSans.ttf" 36)
                    white_half (Solid [255; 255; 255; 0]))))
           eq_refl).
Defined.

(** ** The draw origin *)

Lemma coordinate_margin (a : align) (extent text_extent : Z) :
  text_extent + 20 <= extent ->
  10 <= coordinate a extent text_extent <= extent - text_extent - 10.
Proof.
  intros H. destruct a; unfold coordinate; try lia.
  pose proof (Z.div_mod (extent - text_extent) 2 ltac:(lia)).
  pose proof (Z.mod_pos_bound (extent - text_extent) 2 ltac:(lia)).
  lia.
Qed.

(** X3: the text is measured at [(0, 0)] and only its width and height
    are kept, so the ink of the text drawn at the origin is the measured
    box moved by the origin: it starts [b0] to the right of and [b1] below
    the origin.  When the image is at least 20 pixels wider and higher than
    the text, for every position string, anchor or not, the ink keeps
    [10 + b0] pixels from the left edge and [10 - b0] from the right one,
    [10 + b1] from the top and [10 - b1] from the bottom; so it lies inside
    the image when both offsets are between 0 and 10, and for the fallback
    corner the right and bottom distances are exactly [10 - b0] and
    [10 - b1]. *)
Theorem drawn_text_inside (W H b0 b1 b2 b3 : Z) (p : string) :
  (b2 - b0) + 20 <= W -> (b3 - b1) + 20 <= H ->
  exists x y l t r b,
    draw_origin W H (b2 - b0) (b3 - b1) p = Some (x, y)
    /\ drawn_box (x, y) (b0, b1, b2, b3) = (l, t, r, b)
    /\ 10 + b0 <= l /\ W - r >= 10 - b0
    /\ 10 + b1 <= t /\ H - b >= 10 - b1
    /\ (0 <= b0 <= 10 -> 0 <= b1 <= 10 -> 0 <= l /\ r <= W /\ 0 <= t /\ b <= H)
    /\ (is_anchor p = false -> W - r = 10 - b0 /\ H - b = 10 - b1).
Proof.
  intros HW HH. rewrite draw_origin_rule.
  destruct (is_anchor p).
  - unfold anchor_origin, drawn_box. do 6 eexists.
    split; [reflexivity|]. split; [reflexivity|].
    pose proof (coordinate_margin (fst (anchor p)) W (b2 - b0) HW).
    pose proof (coordinate_margin (snd (anchor p)) H (b3 - b1) HH).
    repeat split; try lia; discriminate.
  - unfold drawn_box. do 6 eexists.
    split; [reflexivity|]. split; [reflexivity|]. repeat split; lia.
Qed.

Lemma drawn_text_inside_witness :
  exists x y l t r b,
    draw_origin 200 100 41 11 "middle-right" = Some (x, y)
    /\ drawn_box (x, y) (2, 9, 43, 20) = (l, t, r, b)
    /\ 10 + 2 <= l /\ 200 - r >= 10 - 2
    /\ 10 + 9 <= t /\ 100 - b >= 10 - 9
    /\ (0 <= 2 <= 10 -> 0 <= 9 <= 10 -> 0 <= l /\ r <= 200 /\ 0 <= t /\ b <= 100)
    /\ (is_anchor "middle-right" = false -> 200 - r = 10 - 2 /\ 100 - b = 10 - 9).
Proof.
  exact (drawn_text_inside 200 100 2 9 43 20 "middle-right" ltac:(lia) ltac:(lia)).
Defined.

(** X4: a centered anchor centers the measured width and height, not the
    ink: along the axis it centers, the space after the ink minus the space
    before it is between [-2 * b0] and [1 - 2 * b0] (vertically, with
    [b1]), where [(b0, b1)] is the corner of the box measured at [(0, 0)].
    So the ink is centered to the pixel exactly when that offset is 0, and
    is displaced by the offset otherwise; this holds also for a text larger
    than the image. *)
Theorem drawn_text_centered (W H b0 b1 b2 b3 : Z) (p : string) (x y l t r b : Z) :
  draw_origin W H (b2 - b0) (b3 - b1) p = Some (x, y) ->
  drawn_box (x, y) (b0, b1, b2, b3) = (l, t, r, b) ->
  (In p ["top-center"; "center"; "bottom-center"] ->
   - 2 * b0 <= (W - r) - l <= 1 - 2 * b0)
  /\ (In p ["middle-left"; "center"; "middle-right"] ->
      - 2 * b1 <= (H - b) - t <= 1 - 2 * b1).
Proof.
  intros Ho [= <- <- <- <-].
  pose proof (Z.div_mod (W - (b2 - b0)) 2 ltac:(lia)).
  pose proof (Z.mod_pos_bound (W - (b2 - b0)) 2 ltac:(lia)).
  pose proof (Z.div_mod (H - (b3 - b1)) 2 ltac:(lia)).
  pose proof (Z.mod_pos_bound (H - (b3 - b1)) 2 ltac:(lia)).
  split; intros Hp; cbn [In] in Hp;
    repeat (destruct Hp as [<- | Hp]; [rewrite draw_origin_rule in Ho;
      injection Ho as <- <-; cbn [coordinate fst snd]; lia|]);
    destruct Hp.
Qed.

Lemma drawn_text_centered_witness :
  (In "center" ["top-center"; "center"; "bottom-center"] ->
   - 2 * 2 <= (200 - 122) - 81 <= 1 - 2 * 2)
  /\ (In "center" ["middle-left"; "center"; "middle-right"] ->
      - 2 * 9 <= (100 - 64) - 53 <= 1 - 2 * 9).
Proof.
  exact (drawn_text_centered 200 100 2 9 43 20 "center" 79 44 81 53 122 64
           eq_refl eq_refl).
Defined.

Lemma assoc_In {A} (k : string) (l : list (string * A)) :
  is_Some (assoc k l) <-> In k (List.map fst l).
Proof.
  induction l as [|[k' a] l IH]; cbn [assoc List.map fst In].
  - split; [intros [? [=]] | tauto].
  - destruct (String.eqb_spec k k') as [->|Hne].
    + split; eauto.
    + rewrite IH. split; [auto | intros [Heq|Hin]; [congruence | exact Hin]].
Qed.

(** X5: the positions that the command line accepts are exactly the keys
    of the table of [add_watermark_to_image]; so a position that passed
    [argparse] is drawn by its own entry, never by the fallback. *)
Theorem choices_are_positions (W H w h : Z) (p : string) :
  (In p position_choices <-> is_Some (positions W H w h !! p))
  /\ (In p position_choices -> draw_origin W H w h p = positions W H w h !! p).
Proof.
  assert (In p position_choices <-> is_Some (positions W H w h !! p)) as Hiff.
  { rewrite positions_lookup.
    change position_choices with (List.map fst anchors).
    rewrite <- assoc_In. destruct (assoc p anchors) as [a|].
    - split; eauto.
    - split; intros [? [=]]. }
  split; [exact Hiff|].
  intros Hin. apply Hiff in Hin as [xy Hxy].
  unfold draw_origin. rewrite Hxy.
  assert (positions W H w h !! "bottom-right" = Some (W - w - 10, H - h - 10)) as ->
    by (rewrite positions_lookup; reflexivity).
  reflexivity.
Qed.

Lemma choices_are_positions_witness :
  draw_origin 200 100 41 11 "top-center" = positions 200 100 41 11 !! "top-center".
Proof.
  destruct (choices_are_positions 200 100 41 11 "top-center") as [_ H].
  apply H. cbn. tauto.
Defined.

Lemma add_watermark_returns_witness :
  exists r st',
    add_watermark_to_image sample_world "photos/gone.jpg" "2024-03-16" 36 white_half
      "center" initial = (Return r, st')
    /\ saved st' = [] /\ r = None
    /\ exists e, st' = printed initial (WatermarkError "photos/gone.jpg" e).
Proof.
  destruct (add_watermark_returns sample_world "photos/gone.jpg" "2024-03-16" 36
              white_half "center" initial)
    as (r & st' & Hrun & Hsaved & _ & Hsome & _ & Hnone).
  assert (r = None) as Hr.
  { destruct r as [im|]; [|reflexivity].
    destruct (proj1 Hsome (mk_is_Some _ _ eq_refl)) as (f & _ & Ho & _).
    discriminate Ho. }
  exists r, st'. split; [exact Hrun|]. split; [exact Hsaved|]. split; [exact Hr|].
  exact (Hnone Hr).
Defined.

(** ** The capture date *)

Lemma strptime_valid (s : string) (dt : Strptime.datetime) :
  Strptime.strptime s = Return dt -> Strptime.valid dt = true.
Proof.
  unfold Strptime.strptime.
  destruct (Strptime.format_regex s) as [|[g rest] tl]; [discriminate|].
  destruct rest; [|discriminate].
  destruct (Strptime.convert g) as [dt'|]; [|discriminate].
  destruct (Strptime.valid dt') eqn:Hv; [|discriminate].
  now intros [= <-].
Qed.

Lemma exif_loop_Some (w : world) (items : list (Z * exif_value)) (s : string) :
  exif_loop w items = Return (Some s) ->
  exists dt, Strptime.valid dt = true /\ s = Strptime.strftime (year_padded w) dt.
Proof.
  induction items as [|[tag_id value] items IH]; cbn [exif_loop]; [discriminate|].
  destruct (is_date_tag (TAGS_get tag_id)); [|exact IH].
  destruct value as [v|]; cbn [strptime_value rbind]; [|discriminate].
  destruct (Strptime.strptime v) as [dt|] eqn:Hv; cbn [rbind]; [|discriminate].
  intros [= <-]. exists dt. split; [eapply strptime_valid, Hv | reflexivity].
Qed.

Lemma date_text_shape (dt : Strptime.datetime) : is_date_text (date_text dt) = true.
Proof.
  unfold date_text, Strptime.pad4, Strptime.pad2.
  rewrite !append_cons, !append_nil.
  cbn [is_date_text forallb]. rewrite !digit_char_decimal. reflexivity.
Qed.

Lemma drop_zeros_length (s : string) :
  (1 <= String.length s -> 1 <= String.length (Strptime.drop_zeros s) <= String.length s)%nat.
Proof.
  induction s as [|c s IH]; cbn [Strptime.drop_zeros String.length]; [lia|].
  intros _. destruct (Ascii.eqb c "0"); [|cbn [String.length]; lia].
  destruct s as [|c' s']; [cbn [String.length]; lia|].
  cbn [String.length] in IH. specialize (IH ltac:(lia)).
  cbn [String.length]. lia.
Qed.

Lemma strftime_length (padded : bool) (dt : Strptime.datetime) :
  (7 <= String.length (Strptime.strftime padded dt) <= 10)%nat.
Proof.
  unfold Strptime.strftime. rewrite !length_append.
  assert (1 <= String.length (Strptime.year_text padded (Strptime.year dt)) <= 4)%nat.
  { assert (String.length (Strptime.pad4 (Strptime.year dt)) = 4%nat) as Hfour
      by reflexivity.
    unfold Strptime.year_text. destruct padded; [lia|].
    pose proof (drop_zeros_length (Strptime.pad4 (Strptime.year dt))). lia. }
  assert (forall n, String.length (Strptime.pad2 n) = 2%nat) as Htwo by reflexivity.
  rewrite !Htwo. cbn [String.length]. lia.
Qed.

(** X6: whatever [get_exif_datetime] returns besides nothing is what
    [strftime("%Y-%m-%d")] writes for a date that exists: seven to ten
    characters, never the empty string, so the caller takes it for a
    capture date.  For a year from 1000 on, and for every year where the C
    library pads [%Y] with zeros, it is the text ["YYYY-MM-DD"]: ten
    characters, digits around two hyphens.  It has then printed nothing. *)
Theorem capture_date_is_strftime (w : world) (image_path : string) (st st' : state)
    (s : string) :
  get_exif_datetime w image_path st = (Return (Some s), st') ->
  (exists dt,
      Strptime.valid dt = true
      /\ s = Strptime.strftime (year_padded w) dt
      /\ (year_padded w = true \/ 1000 <= Strptime.year dt ->
          s = date_text dt /\ is_date_text s = true /\ String.length s = 10%nat))
  /\ (7 <= String.length s <= 10)%nat
  /\ truthy (Some s) = Some s
  /\ st' = st.
Proof.
  rewrite get_exif_datetime_run.
  destruct (get_exif_datetime_body w image_path) as [date|e] eqn:Hbody; [|discriminate].
  intros [= -> <-].
  unfold get_exif_datetime_body in Hbody.
  destruct (image_open w image_path) as [f|]; [|discriminate]. cbn [rbind] in Hbody.
  destruct (file_getexif f) as [[items|]|]; cbn [rbind] in Hbody; try discriminate.
  destruct (exif_loop_Some w items s Hbody) as (dt & Hvalid & ->).
  pose proof (strftime_length (year_padded w) dt) as Hlen.
  split; [|split; [exact Hlen|split; [|reflexivity]]].
  - exists dt. split; [exact Hvalid|]. split; [reflexivity|].
    intros Hy. rewrite (strftime_date_text _ dt Hy Hvalid).
    pose proof (date_text_shape dt) as Hshape.
    split; [reflexivity|]. split; [exact Hshape|].
    unfold date_text. rewrite !length_append. reflexivity.
  - destruct (Strptime.strftime (year_padded w) dt); [cbn in Hlen; lia|reflexivity].
Qed.

Lemma capture_date_is_strftime_witness :
  ((exists dt,
      Strptime.valid dt = true
      /\ "2024-03-16" = Strptime.strftime (year_padded sample_world) dt
      /\ (year_padded sample_world = true \/ 1000 <= Strptime.year dt ->
          "2024-03-16" = date_text dt /\ is_date_text "2024-03-16" = true
          /\ String.length "2024-03-16" = 10%nat))
   /\ (7 <= String.length "2024-03-16" <= 10)%nat
   /\ truthy (Some "2024-03-16") = Some "2024-03-16"
   /\ initial = initial)
  /\ ((exists dt,
      Strptime.valid dt = true
      /\ "999-01-01" = Strptime.strftime (year_padded (single_tag_world "0999:01:01 00:00:00")) dt
      /\ (year_padded (single_tag_world "0999:01:01 00:00:00") = true
          \/ 1000 <= Strptime.year dt ->
          "999-01-01" = date_text dt /\ is_date_text "999-01-01" = true
          /\ String.length "999-01-01" = 10%nat))
   /\ (7 <= String.length "999-01-01" <= 10)%nat
   /\ truthy (Some "999-01-01") = Some "999-01-01"
   /\ initial = initial).
Proof.
  exact (conj
    (capture_date_is_strftime sample_world "photos/a.jpg" initial initial "2024-03-16"
       eq_refl)
    (capture_date_is_strftime (single_tag_world "0999:01:01 00:00:00") "old.jpg" initial
       initial "999-01-01" eq_refl)).
Defined.

(** X7: [get_exif_datetime] prints at most one line, and only for a
    failure: a file that opens and has no metadata, or metadata without a
    date tag, is passed over in silence, while a file that does not open,
    metadata that cannot be read and a first date tag that is no capture
    time each print one line with the path and the exception.  No file is
    written in any case. *)
Theorem get_exif_datetime_diagnostics (w : world) (image_path : string) (st : state) :
  (forall f, image_open w image_path = Return f -> file_getexif f = Return None ->
     get_exif_datetime w image_path st = (Return None, st))
  /\ (forall f items, image_open w image_path = Return f ->
        file_getexif f = Return (Some items) -> no_date_tag items ->
        get_exif_datetime w image_path st = (Return None, st))
  /\ (forall e, image_open w image_path = Raise e ->
        get_exif_datetime w image_path st
        = (Return None, printed st (ExifError image_path e)))
  /\ (forall f e, image_open w image_path = Return f -> file_getexif f = Raise e ->
        get_exif_datetime w image_path st
        = (Return None, printed st (ExifError image_path e)))
  /\ (forall f before tag_id value after e,
        image_open w image_path = Return f ->
        file_getexif f = Return (Some (before ++ (tag_id, value) :: after)) ->
        no_date_tag before -> is_date_id tag_id = true ->
        strptime_value value = Raise e ->
        get_exif_datetime w image_path st
        = (Return None, printed st (ExifError image_path e)))
  /\ (forall r st', get_exif_datetime w image_path st = (r, st') ->
        saved st' = saved st
        /\ (st' = st \/ exists e, st' = printed st (ExifError image_path e))).
Proof.
  split; [|split; [|split; [|split; [|split]]]].
  - intros f Ho He. rewrite get_exif_datetime_run. unfold get_exif_datetime_body.
    rewrite Ho. cbn [rbind]. now rewrite He.
  - intros f items Ho He Hno. rewrite get_exif_datetime_run.
    unfold get_exif_datetime_body. rewrite Ho. cbn [rbind]. rewrite He. cbn [rbind].
    now rewrite exif_loop_none.
  - intros e Ho. rewrite get_exif_datetime_run. unfold get_exif_datetime_body.
    now rewrite Ho.
  - intros f e Ho He. rewrite get_exif_datetime_run. unfold get_exif_datetime_body.
    rewrite Ho. cbn [rbind]. now rewrite He.
  - intros f before tag_id value after e Ho He Hb Hid Hv.
    rewrite get_exif_datetime_run. unfold get_exif_datetime_body.
    rewrite Ho. cbn [rbind]. rewrite He. cbn [rbind].
    now rewrite (exif_loop_first w _ _ _ _ Hb Hid), Hv.
  - intros r st'. rewrite get_exif_datetime_run.
    destruct (get_exif_datetime_body w image_path); intros [= _ <-]; eauto.
Qed.

Lemma get_exif_datetime_diagnostics_witness :
  get_exif_datetime sample_world "photos/c.JPG" initial = (Return None, initial)
  /\ get_exif_datetime sample_world "photos/e.bmp" initial
     = (Return None, printed initial (ExifError "photos/e.bmp" AttributeError))
  /\ get_exif_datetime sample_world "photos/gone.jpg" initial
     = (Return None, printed initial (ExifError "photos/gone.jpg" OSError)).
Proof.
  destruct (get_exif_datetime_diagnostics sample_world "photos/c.JPG" initial)
    as (H1 & _).
  destruct (get_exif_datetime_diagnostics sample_world "photos/e.bmp" initial)
    as (_ & _ & _ & H2 & _).
  destruct (get_exif_datetime_diagnostics sample_world "photos/gone.jpg" initial)
    as (_ & _ & H3 & _).
  exact (conj (H1 _ eq_refl eq_refl) (conj (H2 _ _ eq_refl eq_refl) (H3 _ eq_refl))).
Defined.

(** ** The loop over the directory *)

Lemma process_files_any (w : world) (directory_path watermark_dir : string)
    (font_size : Z) (font_color : list Z) (position : string)
    (filenames : list string) :
  forall processed_count st r st',
  process_files w directory_path watermark_dir font_size font_color position
    filenames processed_count st = (r, st') ->
  exists written,
    saved st' = saved st ++ written
    /\ made_dirs st' = made_dirs st
    /\ Forall (fun entry : string * image =>
                 exists f, In f filenames /\ is_supported f = true
                           /\ lacks_date w directory_path f = false
                           /\ fst entry = path_join watermark_dir f) written
    /\ match r with
       | Return n => n = processed_count + Z.of_nat (List.length written)
       | Raise e => exists path im, save_error w path im = Some e
       end.
Proof.
  induction filenames as [|filename rest IH]; intros processed_count st r st' Hrun.
  - injection Hrun as <- <-. exists []. rewrite app_nil_r.
    repeat split; [constructor | cbn; lia].
  - assert (forall c st0,
              saved st0 = saved st -> made_dirs st0 = made_dirs st ->
              process_files w directory_path watermark_dir font_size font_color
                position rest c st0 = (r, st') ->
              exists written,
                saved st' = saved st ++ written
                /\ made_dirs st' = made_dirs st
                /\ Forall (fun entry : string * image =>
                             exists f, In f (filename :: rest) /\ is_supported f = true
                                       /\ lacks_date w directory_path f = false
                                       /\ fst entry = path_join watermark_dir f) written
                /\ match r with
                   | Return n => n = c + Z.of_nat (List.length written)
                   | Raise e => exists path im, save_error w path im = Some e
                   end) as Hskip.
    { intros c st0 Hs Hd Hrest.
      destruct (IH c st0 r st' Hrest) as (written & H1 & H2 & H3 & H4).
      exists written. rewrite H1, H2, Hs, Hd. repeat split; try assumption.
      eapply Forall_impl; [exact H3|].
      intros entry (f & Hin & Hf). exists f. split; [now right | exact Hf]. }
    cbn [process_files] in Hrun.
    destruct (is_supported filename) eqn:Hsup; [|now apply (Hskip processed_count st)].
    unfold bind at 1 in Hrun. rewrite get_exif_datetime_run in Hrun.
    destruct (get_exif_datetime_body w (path_join directory_path filename))
      as [date|e] eqn:Hbody.
    + destruct (truthy date) as [text|] eqn:Htext.
      * unfold bind at 1 in Hrun. rewrite add_watermark_run in Hrun.
        destruct (add_watermark_body w _ text font_size font_color position)
          as [im|e] eqn:Him.
        -- unfold bind at 1 in Hrun. unfold save at 1 in Hrun.
           destruct (save_error w (path_join watermark_dir filename) im) as [e|] eqn:Hsave.
           ++ injection Hrun as <- <-. exists []. rewrite app_nil_r.
              repeat split; [constructor | eauto].
           ++ unfold bind at 1 in Hrun. unfold print at 1 in Hrun.
              cbn [console made_dirs saved] in Hrun.
              destruct (IH _ _ _ _ Hrun) as (written & H1 & H2 & H3 & H4).
              exists ((path_join watermark_dir filename, im) :: written).
              rewrite H1, H2. cbn [saved made_dirs].
              split; [now rewrite <- app_assoc|]. split; [reflexivity|]. split.
              ** constructor.
                 --- exists filename. repeat split; [now left | exact Hsup | ].
                     unfold lacks_date, capture_date. now rewrite Hbody, Htext.
                 --- eapply Forall_impl; [exact H3|].
                     intros entry (f & Hin & Hf). exists f.
                     split; [now right | exact Hf].
              ** destruct r; [|exact H4]. cbn [List.length]. lia.
        -- now apply (Hskip processed_count
                          (printed st (WatermarkError
                                         (path_join directory_path filename) e))
                          eq_refl eq_refl Hrun).
      * unfold bind at 1 in Hrun. unfold print at 1 in Hrun.
        eapply Hskip; [| |exact Hrun]; reflexivity.
    + cbn [truthy] in Hrun. unfold bind at 1 in Hrun. unfold print at 1 in Hrun.
      eapply Hskip; [| |exact Hrun]; reflexivity.
Qed.

Lemma process_files_supported (w : world) (directory_path watermark_dir : string)
    (font_size : Z) (font_color : list Z) (position : string)
    (filenames : list string) :
  forall processed_count st,
    process_files w directory_path watermark_dir font_size font_color position
      filenames processed_count st
    = process_files w directory_path watermark_dir font_size font_color position
        (List.filter is_supported filenames) processed_count st.
Proof.
  induction filenames as [|filename rest IH]; intros processed_count st; [reflexivity|].
  cbn [List.filter]. destruct (is_supported filename) eqn:Hsup.
  - cbn [process_files]. rewrite Hsup. unfold bind.
    destruct (get_exif_datetime w (path_join directory_path filename) st)
      as [[date|e] st1]; [|reflexivity].
    destruct (truthy date) as [text|].
    + destruct (add_watermark_to_image w _ text font_size font_color position st1)
        as [[[im|]|e] st2]; [|apply IH|reflexivity].
      destruct (save w _ im st2) as [[[]|e] st3]; [|reflexivity].
      destruct (print _ st3) as [[[]|e] st4]; [|reflexivity].
      apply IH.
    + destruct (print _ st1) as [[[]|e] st2]; [|reflexivity].
      apply IH.
  - cbn [process_files]. rewrite Hsup. apply IH.
Qed.

Lemma process_images_supported (w : world) (directory_path : string)
    (font_size : Z) (font_color : list Z) (position : string) (st : state) :
  process_images_in_directory w directory_path font_size font_color position st
  = (makedirs w (watermark_dir_of directory_path) ;;;
     lift (listdir w directory_path) ;;;
     processed_count <- process_files w directory_path
                          (watermark_dir_of directory_path) font_size font_color
                          position (supported_files w directory_path) 0 ;;
     print (Summary processed_count) ;;;
     ret None) st.
Proof.
  unfold process_images_in_directory. fold (watermark_dir_of directory_path).
  unfold bind. destruct (makedirs _ _ st) as [[[]|e] st1]; [|reflexivity].
  unfold lift.
  destruct (listdir w directory_path) as [names|e] eqn:Hls.
  - destruct (supported_after_makedirs w directory_path names Hls)
      as (names' & -> & <-).
    now rewrite process_files_supported.
  - unfold listdir_after_makedirs. rewrite Hls. reflexivity.
Qed.

(** X8: the run depends on the supported names of the listing only.  An
    entry with another extension, and the output directory itself, which
    lies in the directory that is listed, is never opened and leaves no line
    and no file: the run is the making of the output directory, the listing,
    and the loop over the supported names. *)
Theorem unsupported_entries_ignored (w : world) (directory_path : string)
    (font_size : Z) (font_color : list Z) (position : string) (st : state) :
  is_supported (basename directory_path +:+ "_watermark") = false
  /\ process_images_in_directory w directory_path font_size font_color position st
     = (makedirs w (watermark_dir_of directory_path) ;;;
        lift (listdir w directory_path) ;;;
        processed_count <- process_files w directory_path
                             (watermark_dir_of directory_path) font_size font_color
                             position (supported_files w directory_path) 0 ;;
        print (Summary processed_count) ;;;
        ret None) st.
Proof.
  split; [apply watermark_dir_unsupported | apply process_images_supported].
Qed.

Lemma process_images_any (w : world) (directory_path : string) (font_size : Z)
    (font_color : list Z) (position : string) (st : state) (r : result (option Z))
    (st' : state) :
  process_images_in_directory w directory_path font_size font_color position st
  = (r, st') ->
  exists written,
    saved st' = saved st ++ written
    /\ Forall (fun entry : string * image =>
                 exists f, In f (listing w directory_path) /\ is_supported f = true
                           /\ lacks_date w directory_path f = false
                           /\ fst entry = path_join (watermark_dir_of directory_path) f)
         written
    /\ match r with
       | Return v =>
           v = None
           /\ last (console st') = Some (Summary (Z.of_nat (List.length written)))
       | Raise e =>
           makedirs_error w (watermark_dir_of directory_path) = Some e
           \/ listdir w directory_path = Raise e
           \/ exists path im, save_error w path im = Some e
       end.
Proof.
  rewrite process_images_supported. unfold bind at 1.
  destruct (makedirs w (watermark_dir_of directory_path) st) as [r0 st1] eqn:Hmk.
  destruct (makedirs_keeps _ _ _ _ _ Hmk) as [Hsaved1 Hconsole1].
  rewrite makedirs_run in Hmk.
  destruct (makedirs_error w (watermark_dir_of directory_path)) as [e|] eqn:Hme.
  { injection Hmk as <- <-. intros [= <- <-]. exists []. rewrite app_nil_r.
    split; [reflexivity|]. split; [constructor|]. now left. }
  injection Hmk as <- _.
  unfold bind at 1. unfold lift at 1.
  destruct (listdir w directory_path) as [names|e] eqn:Hls.
  2:{ intros [= <- <-]. exists []. rewrite app_nil_r.
      split; [exact Hsaved1|]. split; [constructor|]. right. now left. }
  unfold bind at 1.
  destruct (process_files w directory_path (watermark_dir_of directory_path) font_size
              font_color position (supported_files w directory_path) 0 st1)
    as [r1 st2] eqn:Hrun.
  destruct (process_files_any _ _ _ _ _ _ _ _ _ _ _ Hrun) as (written & H1 & _ & H3 & H4).
  assert (Forall (fun entry : string * image =>
                    exists f, In f (listing w directory_path) /\ is_supported f = true
                              /\ lacks_date w directory_path f = false
                              /\ fst entry = path_join (watermark_dir_of directory_path) f)
            written) as Hwritten.
  { eapply Forall_impl; [exact H3|].
    intros entry (f & Hin & Hf). exists f. split; [|exact Hf].
    unfold supported_files in Hin. apply filter_In in Hin. tauto. }
  destruct r1 as [n|e].
  - unfold bind, print, ret. intros [= <- <-].
    exists written. cbn [saved console]. rewrite H1, Hsaved1.
    split; [reflexivity|]. split; [exact Hwritten|]. split; [reflexivity|].
    rewrite last_snoc. f_equal. f_equal. lia.
  - intros [= <- <-]. exists written. rewrite H1, Hsaved1.
    split; [reflexivity|]. split; [exact Hwritten|]. right. right. exact H4.
Qed.

(** X9: a file that has a capture date and fails in the compositor is
    passed over: the compositor's line is printed, nothing is written for
    the file, the count stays, and the loop goes on with the next name. *)
Theorem compositing_failure_skips (w : world) (directory_path watermark_dir : string)
    (font_size : Z) (font_color : list Z) (position filename : string)
    (rest : list string) (processed_count : Z) (st : state) (text : string) (e : exn) :
  is_supported filename = true ->
  capture_date w (path_join directory_path filename) = Some text ->
  add_watermark_body w (path_join directory_path filename) text font_size font_color
    position = Raise e ->
  process_files w directory_path watermark_dir font_size font_color position
    (filename :: rest) processed_count st
  = process_files w directory_path watermark_dir font_size font_color position
      rest processed_count
      (printed st (WatermarkError (path_join directory_path filename) e)).
Proof.
  intros Hsup Hdate Hbody. cbn [process_files]. rewrite Hsup.
  unfold bind at 1. rewrite get_exif_datetime_run.
  unfold capture_date in Hdate.
  destruct (get_exif_datetime_body w (path_join directory_path filename))
    as [date|]; [|discriminate Hdate].
  rewrite Hdate. unfold bind at 1. rewrite add_watermark_run, Hbody. reflexivity.
Qed.

Lemma compositing_failure_skips_witness :
  process_files no_text_world
    "photos" "photos/photos_watermark" 36 white_half "center" ["a.jpg"; "c.JPG"] 0 initial
  = (Return 0,
     State [ WatermarkError "photos/a.jpg" ValueError; NoCaptureTime "c.JPG" ] [] []).
Proof.
  rewrite (compositing_failure_skips no_text_world
             "photos" "photos/photos_watermark" 36 white_half
             "center" "a.jpg" ["c.JPG"] 0 initial "2024-03-16" ValueError
             eq_refl eq_refl eq_refl).
  vm_compute. reflexivity.
Defined.

(** X10: the only exceptions that leave [process_images_in_directory] are
    those of [os.makedirs], of [os.listdir] and of [save]: an exception it
    raises is one that the making of the output directory, the listing or
    the write of an image raised, whatever the files hold.  Where the output
    directory can be made and the directory listed and no write fails, the
    function returns, with [None].  Where the output directory cannot be
    made the exception leaves at once, and where the directory cannot be
    listed it leaves with the output directory made, nothing printed and
    nothing written. *)
Theorem only_environment_errors_escape (w : world) (directory_path : string)
    (font_size : Z) (font_color : list Z) (position : string) (st : state) :
  (forall e st',
      process_images_in_directory w directory_path font_size font_color position st
      = (Raise e, st') ->
      makedirs_error w (watermark_dir_of directory_path) = Some e
      \/ listdir w directory_path = Raise e
      \/ exists path im, save_error w path im = Some e)
  /\ (makedirs_error w (watermark_dir_of directory_path) = None ->
      (exists names, listdir w directory_path = Return names) ->
      (forall path im, save_error w path im = None) ->
      exists st',
        process_images_in_directory w directory_path font_size font_color position st
        = (Return None, st'))
  /\ (forall e,
        makedirs_error w (watermark_dir_of directory_path) = Some e ->
        process_images_in_directory w directory_path font_size font_color position st
        = (Raise e, st))
  /\ (forall e,
        makedirs_error w (watermark_dir_of directory_path) = None ->
        listdir w directory_path = Raise e ->
        exists st',
          process_images_in_directory w directory_path font_size font_color position st
          = (Raise e, st')
          /\ saved st' = saved st /\ console st' = console st
          /\ In (watermark_dir_of directory_path) (made_dirs st')).
Proof.
  split; [|split; [|split]].
  - intros e st' Hrun.
    destruct (process_images_any _ _ _ _ _ _ _ _ Hrun) as (written & _ & _ & H). exact H.
  - intros Hmk [names Hls] Hsave.
    destruct (process_images_in_directory w directory_path font_size font_color position st)
      as [r st'] eqn:Hrun.
    destruct (process_images_any _ _ _ _ _ _ _ _ Hrun) as (written & _ & _ & H).
    destruct r as [v|e].
    + destruct H as [-> _]. eauto.
    + destruct H as [H | [H | (path & im & H)]]; [congruence | congruence |].
      rewrite Hsave in H. discriminate H.
  - intros e Hmk. rewrite process_images_supported. unfold bind at 1.
    rewrite makedirs_run, Hmk. reflexivity.
  - intros e Hmk Hls. rewrite process_images_supported. unfold bind at 1.
    rewrite makedirs_run, Hmk. unfold bind at 1. unfold lift at 1. rewrite Hls.
    eexists. split; [reflexivity|].
    case_bool_decide as Hin; cbn [saved console made_dirs].
    + repeat split. now apply list_elem_of_In.
    + repeat split. apply in_or_app. right. now left.
Qed.

Lemma only_environment_errors_escape_witness :
  (makedirs_error full_disk_world (watermark_dir_of "photos") = Some OSError
   \/ listdir full_disk_world "photos" = Raise OSError
   \/ exists path im, save_error full_disk_world path im = Some OSError)
  /\ (exists st',
        process_images_in_directory sample_world "photos" 36 white_half "center" initial
        = (Return None, st'))
  /\ process_images_in_directory read_only_world "photos" 36 white_half "center" initial
     = (Raise OSError, initial)
  /\ (exists st',
        process_images_in_directory sample_world "holiday" 36 white_half "center" initial
        = (Raise OSError, st')
        /\ saved st' = saved initial /\ console st' = console initial
        /\ In (watermark_dir_of "holiday") (made_dirs st')).
Proof.
  assert (process_images_in_directory full_disk_world "photos" 36 white_half
            "bottom-right" initial
          = (Raise OSError, State [] ["photos/photos_watermark"] [])) as Hrun
    by (vm_compute; reflexivity).
  destruct (only_environment_errors_escape full_disk_world "photos" 36 white_half
              "bottom-right" initial) as (H1 & _).
  destruct (only_environment_errors_escape sample_world "photos" 36 white_half "center"
              initial) as (_ & H2 & _).
  destruct (only_environment_errors_escape read_only_world "photos" 36 white_half "center"
              initial) as (_ & _ & H3 & _).
  destruct (only_environment_errors_escape sample_world "holiday" 36 white_half "center"
              initial) as (_ & _ & _ & H4).
  exact (conj (H1 _ _ Hrun)
           (conj (H2 eq_refl (ex_intro _ _ eq_refl) (fun _ _ => eq_refl))
              (conj (H3 OSError eq_refl) (H4 OSError eq_refl eq_refl)))).
Defined.

(** X11: whenever [process_images_in_directory] returns, the count of its
    last line is the number of files that this run wrote, also when some
    files failed in the compositor; and every file it wrote lies in the
    output directory under the name of a supported entry of the listing that
    has a capture date. *)
Theorem summary_counts_written (w : world) (directory_path : string) (font_size : Z)
    (font_color : list Z) (position : string) (st st' : state) (v : option Z) :
  process_images_in_directory w directory_path font_size font_color position st
  = (Return v, st') ->
  v = None
  /\ exists written,
      saved st' = saved st ++ written
      /\ last (console st') = Some (Summary (Z.of_nat (List.length written)))
      /\ Forall (fun entry : string * image =>
                   exists f, In f (listing w directory_path) /\ is_supported f = true
                             /\ lacks_date w directory_path f = false
                             /\ fst entry
                                = path_join (watermark_dir_of directory_path) f)
           written.
Proof.
  intros Hrun.
  destruct (process_images_any _ _ _ _ _ _ _ _ Hrun) as (written & H1 & H2 & -> & H3).
  split; [reflexivity|]. exists written. auto.
Qed.

Lemma summary_counts_written_witness :
  exists written,
    saved (snd (process_images_in_directory sample_world "photos" 36 white_half "center"
                  initial))
    = [] ++ written
    /\ last (console (snd (process_images_in_directory sample_world "photos" 36
                             white_half "center" initial)))
       = Some (Summary (Z.of_nat (List.length written))).
Proof.
  assert (process_images_in_directory sample_world "photos" 36 white_half "center" initial
          = (Return None,
             snd (process_images_in_directory sample_world "photos" 36 white_half
                    "center" initial))) as Hrun
    by (vm_compute; reflexivity).
  destruct (summary_counts_written sample_world "photos" 36 white_half "center" initial
              _ None Hrun)
    as (_ & written & Hsaved & Hlast & _).
  exists written. split; [exact Hsaved | exact Hlast].
Defined.

(** ** Paths *)

Lemma append_assoc (x y z : string) : (x +:+ y) +:+ z = x +:+ (y +:+ z).
Proof. induction x as [|a x IH]; [reflexivity|]. rewrite !append_cons. now rewrite IH. Qed.

Lemma split_no_sep_parts (c : ascii) (s : string) :
  Forall (fun x => Py.count c x = 0%nat) (Py.split c s).
Proof.
  induction s as [|a s IH]; cbn [Py.split].
  - repeat constructor.
  - destruct (Ascii.eqb a c) eqn:Hac.
    + constructor; [reflexivity | exact IH].
    + destruct (Py.split c s) as [|x xs].
      * constructor; [|constructor]. cbn [Py.count]. now rewrite Hac.
      * inversion IH as [|? ? Hx Hxs]; subst. constructor; [|exact Hxs].
        cbn [Py.count]. now rewrite Hac.
Qed.

Lemma basename_no_sep (p : string) : Py.count "/" (basename p) = 0%nat.
Proof.
  unfold basename. pose proof (split_no_sep_parts "/" p) as H.
  induction H as [|x xs Hx _ IH]; [reflexivity|].
  destruct xs; [exact Hx | exact IH].
Qed.

Lemma no_sep_startswith (c : ascii) (x : string) :
  Py.count c x = 0%nat -> Py.startswith x (String c EmptyString) = false.
Proof.
  destruct x as [|a x]; [reflexivity|]. cbn [Py.count Py.startswith].
  destruct (Ascii.eqb_spec a c) as [->|Hne]; [discriminate|].
  intros _. apply andb_false_iff. left. apply Ascii.eqb_neq. congruence.
Qed.

(** [os.path.join] on a name without a slash: the directory, a slash
    unless the directory is empty or ends in one, the name. *)
Lemma path_join_name (a b : string) :
  Py.count "/" b = 0%nat ->
  path_join a b
  = a +:+ (if String.eqb a EmptyString || Py.endswith a "/" then "" else "/") +:+ b.
Proof.
  intros Hb. unfold path_join. rewrite (no_sep_startswith "/" b Hb).
  destruct (String.eqb a EmptyString || Py.endswith a "/"); reflexivity.
Qed.

Lemma watermark_name_no_sep (directory_path : string) :
  Py.count "/" (basename directory_path +:+ "_watermark") = 0%nat.
Proof. rewrite count_append, basename_no_sep. reflexivity. Qed.

(** The path of an output file, for a name without a slash. *)
Lemma output_path_name (directory_path f : string) :
  Py.count "/" f = 0%nat ->
  path_join (watermark_dir_of directory_path) f
  = directory_path
    +:+ (if String.eqb directory_path EmptyString || Py.endswith directory_path "/"
         then "" else "/")
    +:+ (basename directory_path +:+ "_watermark") +:+ "/" +:+ f.
Proof.
  intros Hf. unfold watermark_dir_of.
  rewrite (path_join_name directory_path _ (watermark_name_no_sep directory_path)).
  set (sep := if String.eqb directory_path EmptyString || Py.endswith directory_path "/"
              then "" else "/").
  rewrite (path_join_name _ f Hf).
  assert (String.eqb (directory_path +:+ sep +:+ basename directory_path +:+ "_watermark")
            EmptyString = false) as ->.
  { apply String.eqb_neq. intros Heq.
    apply (f_equal String.length) in Heq. rewrite !length_append in Heq.
    simpl in Heq. lia. }
  assert (Py.endswith (directory_path +:+ sep +:+ basename directory_path +:+ "_watermark")
            "/" = false) as ->.
  { rewrite <- !append_assoc. rewrite endswith_append by (simpl; lia). reflexivity. }
  cbn [orb]. now rewrite !append_assoc.
Qed.

(** X12: no input file is written over.  Where the names of the listing
    hold no slash, as those of [os.listdir] do, every file that a run
    writes, up to its end or to the exception that ends it, has a path that
    differs from the path of every entry of the directory. *)
Theorem inputs_never_overwritten (w : world) (directory_path : string) (font_size : Z)
    (font_color : list Z) (position : string) (st st' : state) (r : result (option Z)) :
  Forall (fun g => Py.count "/" g = 0%nat) (listing w directory_path) ->
  process_images_in_directory w directory_path font_size font_color position st
  = (r, st') ->
  exists written,
    saved st' = saved st ++ written
    /\ forall entry g,
        In entry written -> In g (listing w directory_path) ->
        fst entry <> path_join directory_path g.
Proof.
  intros Hnames Hrun.
  destruct (process_images_any _ _ _ _ _ _ _ _ Hrun) as (written & H1 & H2 & _).
  exists written. split; [exact H1|].
  intros entry g Hentry Hg Heq.
  rewrite List.Forall_forall in H2, Hnames.
  destruct (H2 entry Hentry) as (f & Hf & _ & _ & Hpath).
  rewrite Hpath, (output_path_name _ f (Hnames f Hf)),
    (path_join_name directory_path g (Hnames g Hg)) in Heq.
  apply String.app_inj in Heq. apply String.app_inj in Heq.
  pose proof (Hnames g Hg) as Hcount. rewrite <- Heq in Hcount.
  rewrite !count_append, count_sep in Hcount. lia.
Qed.

Lemma inputs_never_overwritten_witness :
  exists written,
    saved (snd (process_images_in_directory sample_world "photos" 36 white_half "center"
                  initial)) = [] ++ written
    /\ forall entry g,
        In entry written -> In g (listing sample_world "photos") ->
        fst entry <> path_join "photos" g.
Proof.
  assert (Forall (fun g => Py.count "/" g = 0%nat) (listing sample_world "photos"))
    as Hnames by (repeat constructor).
  assert (process_images_in_directory sample_world "photos" 36 white_half "center" initial
          = (Return None,
             snd (process_images_in_directory sample_world "photos" 36 white_half
                    "center" initial))) as Hrun
    by (vm_compute; reflexivity).
  exact (inputs_never_overwritten sample_world "photos" 36 white_half "center" initial
           _ _ Hnames Hrun).
Defined.

(** ** [main] *)

(** X13: [main] checks the directory before anything else.  For an
    argument that is no directory it prints its one line and returns: no
    directory is made, no file written, no file opened, no line of the run
    printed.  Otherwise it prints its four lines and runs
    [process_images_in_directory] on the arguments as parsed; it then writes
    into the output directory of that directory only, and raises only what
    the making of the output directory, the listing or a write raised. *)
Theorem main_checks_directory (w : world) (isdir : string -> bool)
    (args : Args.namespace) (st : state) :
  (isdir (Args.directory args) = false ->
   main w isdir args st = ([DirectoryMissing (Args.directory args)], (Return tt, st)))
  /\ (isdir (Args.directory args) = true ->
      exists r st' written,
        main w isdir args st
        = ([ StartDirectory (Args.directory args); FontSize (Args.font_size args);
             FontColor (Args.color args); WatermarkPosition (Args.position args) ],
           (r, st'))
        /\ (exists r', process_images_in_directory w (Args.directory args)
                         (Args.font_size args) (Args.color args) (Args.position args) st
                       = (r', st')
                       /\ (is_raise r <-> is_raise r'))
        /\ saved st' = saved st ++ written
        /\ Forall (fun entry : string * image =>
                     exists f, In f (listing w (Args.directory args))
                               /\ fst entry
                                  = path_join (watermark_dir_of (Args.directory args)) f)
             written
        /\ (forall e, r = Raise e ->
            makedirs_error w (watermark_dir_of (Args.directory args)) = Some e
            \/ listdir w (Args.directory args) = Raise e
            \/ exists path im, save_error w path im = Some e)).
Proof.
  split; intros Hdir; unfold main; rewrite Hdir; cbn [negb]; [reflexivity|].
  unfold bind, ret.
  destruct (process_images_in_directory w (Args.directory args) (Args.font_size args)
              (Args.color args) (Args.position args) st) as [r' st'] eqn:Hrun.
  destruct (process_images_any _ _ _ _ _ _ _ _ Hrun) as (written & H1 & H2 & H3).
  assert (Forall (fun entry : string * image =>
                    exists f, In f (listing w (Args.directory args))
                              /\ fst entry
                                 = path_join (watermark_dir_of (Args.directory args)) f)
            written) as Hwritten.
  { eapply Forall_impl; [exact H2|]. intros entry (f & Hf & _ & _ & Hp). eauto. }
  destruct r' as [v|e].
  - exists (Return tt), st', written.
    split; [reflexivity|]. split.
    { exists (Return v). split; [reflexivity | tauto]. }
    split; [exact H1|]. split; [exact Hwritten|]. discriminate.
  - exists (Raise e), st', written.
    split; [reflexivity|]. split.
    { exists (Raise e). split; [reflexivity | tauto]. }
    split; [exact H1|]. split; [exact Hwritten|].
    intros e' [= <-]. exact H3.
Qed.

Lemma main_checks_directory_witness :
  main sample_world (String.eqb "photos") (Args.Namespace "holiday" 36 default_color
                                             "bottom-right") initial
  = ([DirectoryMissing "holiday"], (Return tt, initial))
  /\ exists r st' written,
      main sample_world (String.eqb "photos")
        (Args.Namespace "photos" 36 default_color "bottom-right") initial
      = ([ StartDirectory "photos"; FontSize 36; FontColor default_color;
           WatermarkPosition "bottom-right" ], (r, st'))
      /\ saved st' = [] ++ written.
Proof.
  destruct (main_checks_directory sample_world (String.eqb "photos")
              (Args.Namespace "holiday" 36 default_color "bottom-right") initial)
    as [H1 _].
  destruct (main_checks_directory sample_world (String.eqb "photos")
              (Args.Namespace "photos" 36 default_color "bottom-right") initial)
    as [_ H2].
  split; [exact (H1 eq_refl)|].
  destruct (H2 eq_refl) as (r & st' & written & Hmain & _ & Hsaved & _).
  exists r, st', written. split; [exact Hmain | exact Hsaved].
Defined.

(** ** More on [parse_color] *)

Lemma hex_digits_ok (v : Z) :
  channel v ->
  is_hex_digit (hex_digit (v / 16)) = true
  /\ is_hex_digit (hex_digit (v mod 16)) = true
  /\ 16 * hex_value (hex_digit (v / 16)) + hex_value (hex_digit (v mod 16)) = v.
Proof.
  intros Hv.
  assert (hex_digits_check v = true) as H.
  { apply (range_check hex_digits_check 256); [vm_compute; reflexivity|].
    unfold channel in Hv. lia. }
  unfold hex_digits_check in H.
  apply andb_true_iff in H as [H H3]. apply andb_true_iff in H as [H1 H2].
  apply Z.eqb_eq in H3. auto.
Qed.

Lemma hex_digits_read (c : list Z) :
  Forall channel c ->
  hex_bytes (hex_digits c) = c
  /\ forall_chars is_hex_digit (hex_digits c) = true
  /\ String.length (hex_digits c) = (2 * List.length c)%nat.
Proof.
  induction 1 as [|v c Hv _ (IH1 & IH2 & IH3)]; [repeat split|].
  destruct (hex_digits_ok v Hv) as (H1 & H2 & H3).
  cbn [hex_digits hex_bytes forall_chars String.length List.length].
  rewrite H1, H2, H3, IH1, IH2, IH3. repeat split. lia.
Qed.

(** X14: every color can be written.  For four channels in [0,255],
    [parse_color] reads the eight hex digits that write them back to the
    same four; for three channels it reads the six digits back to the three
    and alpha 255. *)
Theorem parse_color_reads_hex (c : list Z) :
  Forall channel c ->
  (List.length c = 4%nat -> parse_color (to_hex c) = Return c)
  /\ (List.length c = 3%nat -> parse_color (to_hex c) = Return (c ++ [255])).
Proof.
  intros Hc. destruct (hex_digits_read c Hc) as (Hbytes & Hhex & Hlen).
  unfold to_hex. rewrite parse_color_hash, Hlen.
  split; intros Hn; rewrite Hn; cbn [Nat.mul Nat.add Nat.eqb].
  - rewrite Hn in Hlen.
    rewrite (proj1 (hex_channels_8 _ Hlen Hhex)), Hbytes. reflexivity.
  - rewrite Hn in Hlen.
    rewrite (proj1 (hex_channels_6 _ Hlen Hhex)), Hbytes. reflexivity.
Qed.

Lemma parse_color_reads_hex_witness :
  to_hex default_color = "#ffffff80"
  /\ parse_color (to_hex default_color) = Return default_color
  /\ parse_color (to_hex [18; 171; 0]) = Return [18; 171; 0; 255].
Proof.
  assert (Forall channel default_color) as H1 by (repeat constructor; unfold channel; lia).
  assert (Forall channel [18; 171; 0]) as H2 by (repeat constructor; unfold channel; lia).
  split; [reflexivity|].
  exact (conj (proj1 (parse_color_reads_hex _ H1) eq_refl)
           (proj2 (parse_color_reads_hex _ H2) eq_refl)).
Defined.

Lemma int_lower_pair (a b : ascii) :
  Py.int (String (Py.lower_char a) (String (Py.lower_char b) EmptyString)) 16
  = Py.int (String a (String b EmptyString)) 16.
Proof.
  assert (lower_pair_check a b = true) as H.
  { apply forall_ascii2. vm_compute. reflexivity. }
  unfold lower_pair_check in H.
  destruct (Py.int (String a (String b "")) 16) as [u|],
           (Py.int (String (Py.lower_char a) (String (Py.lower_char b) "")) 16) as [v|];
    try discriminate H; [|reflexivity].
  apply Z.eqb_eq in H. now subst.
Qed.

(** X15: the hex form does not mind the case of its letters: for six or
    eight characters after the [#], whatever they are, [parse_color] gives
    the text and its lower-case form the same result. *)
Theorem parse_color_hex_case (h : string) :
  (String.length h = 6 \/ String.length h = 8)%nat ->
  parse_color (String "#" (Py.lower h)) = parse_color (String "#" h).
Proof.
  intros Hlen. rewrite !parse_color_hash, length_lower.
  destruct Hlen as [Hlen|Hlen]; rewrite Hlen; cbn [Nat.eqb].
  - do 6 (destruct h as [|? h]; [discriminate Hlen|]).
    destruct h; [|discriminate Hlen].
    unfold hex_channels. cbn -[Py.int Py.lower_char]. unfold Py.int_or_raise.
    now rewrite !int_lower_pair.
  - do 8 (destruct h as [|? h]; [discriminate Hlen|]).
    destruct h; [|discriminate Hlen].
    unfold hex_channels. cbn -[Py.int Py.lower_char]. unfold Py.int_or_raise.
    now rewrite !int_lower_pair.
Qed.

Lemma parse_color_hex_case_witness :
  parse_color "#ffab0080" = parse_color "#FFaB0080".
Proof.
  exact (parse_color_hex_case "FFaB0080" (or_intror eq_refl)).
Defined.

Lemma split_append (c : ascii) (x y : string) :
  Py.split c (x +:+ String c y) = Py.split c x ++ Py.split c y.
Proof.
  induction x as [|a x IH].
  - rewrite append_nil. cbn [Py.split]. now rewrite Ascii.eqb_refl.
  - rewrite append_cons. cbn [Py.split]. rewrite IH.
    destruct (Ascii.eqb a c); [reflexivity|].
    destruct (Py.split c x) as [|x0 xs] eqn:Hx; [|reflexivity].
    now apply split_nonempty in Hx.
Qed.

Lemma rmap_snoc {A B} (f : A -> result B) (l : list A) (x : A) (y : B) :
  f x = Return y ->
  rmap f (l ++ [x]) = rbind (rmap f l) (fun ys => Return (ys ++ [y])).
Proof.
  intros Hx. induction l as [|a l IH]; cbn [app rmap].
  - rewrite Hx. reflexivity.
  - destruct (f a) as [b|e]; cbn [rbind]; [|reflexivity].
    rewrite IH. destruct (rmap f l); reflexivity.
Qed.

(** X16: a color written without alpha is the color written with full
    alpha.  [parse_color] gives six characters after the [#] the result it
    gives them followed by [ff], and a text with two commas the result it
    gives it followed by [,255]; this holds for every such text, also where
    both are refused. *)
Theorem parse_color_alpha_default (s : string) :
  (String.length s = 6%nat ->
   parse_color (String "#" s) = parse_color (String "#" (s +:+ "ff")))
  /\ (Py.startswith s "#" = false -> Py.count "," s = 2%nat ->
      parse_color s = parse_color (s +:+ ",255")).
Proof.
  split.
  - intros Hlen.
    do 6 (destruct s as [|? s]; [discriminate Hlen|]).
    destruct s; [|discriminate Hlen].
    rewrite !append_cons, append_nil, !parse_color_hash.
    cbn [String.length Nat.eqb]. unfold hex_channels.
    cbn -[Py.int]. unfold Py.int_or_raise.
    change (Py.int "ff" 16) with (Some 255).
    repeat match goal with
      | |- context [Py.int (String ?a (String ?b EmptyString)) 16] =>
          destruct (Py.int (String a (String b EmptyString)) 16); cbn [rbind]
      end; reflexivity.
  - intros Hs Hcount.
    assert (Py.startswith (s +:+ ",255") "#" = false) as Hs'.
    { destruct s as [|a s]; [discriminate Hcount|]. rewrite append_cons. exact Hs. }
    rewrite (parse_color_no_hash _ Hs), (parse_color_no_hash _ Hs').
    rewrite count_append, Hcount. cbn [Py.count Ascii.eqb Nat.add Nat.eqb orb].
    change (2 + 1 =? 2)%nat with false. change (2 + 1 =? 3)%nat with true.
    cbn [orb]. rewrite split_append.
    change (Py.split "," "255") with ["255"].
    rewrite (rmap_snoc _ _ "255" 255) by reflexivity.
    destruct (rmap (fun x => Py.int_or_raise (Py.strip x) 10) (Py.split "," s))
      as [values|e] eqn:Hv; cbn [rbind]; [|reflexivity].
    apply rmap_length in Hv. rewrite length_split, Hcount in Hv.
    rewrite length_app, Hv. reflexivity.
Qed.

Lemma parse_color_alpha_default_witness :
  parse_color "#ff8000" = parse_color "#ff8000ff"
  /\ parse_color "1, 2,3" = parse_color "1, 2,3,255"
  /\ parse_color "#zz0000" = parse_color "#zz0000ff".
Proof.
  exact (conj (proj1 (parse_color_alpha_default "ff8000") eq_refl)
           (conj (proj2 (parse_color_alpha_default "1, 2,3") eq_refl eq_refl)
              (proj1 (parse_color_alpha_default "zz0000") eq_refl))).
Defined.
